(** * NeurIPS paper scraper and annotator: a shallow embedding

    The repository holds two Python scripts:
    - [Scrapping.py] walks the yearly index pages of papers.nips.cc,
      downloads each paper's PDF and appends a metadata record to a CSV
      file and to a JSON file;
    - [Data annotation/annotate_dataset.py] reads the JSON file, asks a
      language model for a category per paper and writes an annotated CSV.

    Both are embedded below as state-passing functions over an explicit
    world (the files on disk, the requests issued so far, the trace of
    network and timer actions).  Whatever lies outside the scripts (the
    web server, the HTML parser, the model's answers, the length of a
    JSON dump, the names the file system accepts) is a field of a
    [platform] record the functions take. *)

From Stdlib Require Import ZArith NArith Lia String Ascii DecimalString.
From stdpp Require Import base option list gmap.

Set Warnings "-register-all".
Open Scope Z_scope.

(** ** Python values *)

Module Py.

(** A Python [str] is a sequence of code points. *)
Abbreviation str := (list N) (only parsing).

(** ASCII literals. *)
Definition py (s : string) : str :=
  (λ a, N_of_ascii a) <$> list_ascii_of_string s.

Arguments py : simpl never.

(** Decimal text of an [int], as an f-string prints it. *)
Definition str_of_int (z : Z) : str :=
  py (NilZero.string_of_int (Z.to_int z)).

(** [str.isspace] on one code point (the table of CPython's
    [_PyUnicode_IsWhitespace]). *)
Definition is_space (c : N) : bool :=
  ((9 <=? c) && (c <=? 13) || (28 <=? c) && (c <=? 32)
   || (c =? 133) || (c =? 160) || (c =? 5760)
   || (8192 <=? c) && (c <=? 8202)
   || (c =? 8232) || (c =? 8233) || (c =? 8239) || (c =? 8287)
   || (c =? 12288))%N.

Fixpoint lstrip (s : str) : str :=
  match s with
  | c :: s' => if is_space c then lstrip s' else s
  | [] => []
  end.

Definition rstrip (s : str) : str := reverse (lstrip (reverse s)).

(** [s.strip()] *)
Definition strip (s : str) : str := rstrip (lstrip s).

(** [range(n)] *)
Definition range (n : Z) : list Z := Z.of_nat <$> seq 0 (Z.to_nat n).

(** The exception classes the two scripts can meet. *)
Inductive exn :=
| TimeoutError | ClientError | UnicodeDecodeError
| JSONDecodeError | KeyError | IndexError | TypeError | AttributeError
| ValueError | APIError | OSError.

Inductive result (A : Type) :=
| Ok (a : A)
| Raise (e : exn).
Arguments Ok {A} a.
Arguments Raise {A} e.

(** Values [json.load] produces; a float is kept as its literal. *)
Inductive json :=
| JNull
| JBool (b : bool)
| JInt (z : Z)
| JFloat (literal : str)
| JStr (s : str)
| JList (l : list json)
| JDict (d : list (str * json)).

(** [d.get(key)] on a dict kept as an association list. *)
Fixpoint dict_get (key : str) (d : list (str * json)) : option json :=
  match d with
  | [] => None
  | (k, v) :: d' => if decide (k = key) then Some v else dict_get key d'
  end.

(** [d[key] = v]: replaces in place, or adds at the end. *)
Fixpoint dict_set (key : str) (v : json) (d : list (str * json))
  : list (str * json) :=
  match d with
  | [] => [(key, v)]
  | (k, x) :: d' =>
      if decide (k = key) then (k, v) :: d' else (k, x) :: dict_set key v d'
  end.

(** [obj[key]] with a string key. *)
Definition getitem (obj : json) (key : str) : result json :=
  match obj with
  | JDict d => match dict_get key d with Some v => Ok v | None => Raise KeyError end
  | _ => Raise TypeError
  end.

(** [obj[0]] *)
Definition getitem0 (obj : json) : result json :=
  match obj with
  | JList (x :: _) => Ok x
  | JList [] => Raise IndexError
  | JStr (c :: _) => Ok (JStr [c])
  | JStr [] => Raise IndexError
  | JDict _ => Raise KeyError
  | _ => Raise TypeError
  end.

End Py.
Export Py.

(** ** The world the scripts run in *)

Module World.

(** One line of a CSV file, as [csv.DictWriter] writes it. *)
Inductive csv_line :=
| Header (fieldnames : list str)
| Row (cells : list json).

(** The content of a file, by what the scripts can observe of it.
    - [Dumped data]: exactly the text [json.dump(data, f, indent=4)] writes;
    - [Other len blank_from utf8_from decodes]: any other content, [len]
      bytes long and blank from byte [blank_from] on; [utf8_from k] tells
      whether the bytes from offset [k] on are valid UTF-8 (so
      [utf8_from 0] tells whether the file can be read as text at all), and
      [decodes] is what [json.load] makes of the text ([None] when it raises
      [JSONDecodeError]);
    - [Table lines]: the lines a [csv] writer produced;
    - [Binary chunks]: the byte chunks written so far. *)
Inductive file :=
| Dumped (data : json)
| Other (len blank_from : nat) (utf8_from : nat → bool)
        (decodes : option json)
| Table (lines : list csv_line)
| Binary (chunks : list (list N)).

(** The parts of an f-string: literal text and formatted values. *)
Inductive piece := Lit (s : str) | Fmt (v : json).

(** Observable actions besides printing. *)
Inductive event :=
| Get (url : str)
| Sleep (seconds : Z)
| ChatCompletion (prompt : list piece).

Record world := World {
  fs : gmap (list N) file;
  requests : nat;
  trace : list event
}.

(** An HTTP response: its status, what [await response.text()] gives, and
    what the successive [response.content.read(n)] calls give: the chunks,
    then end of stream ([ending = None]) or an exception. *)
Record response := Response {
  status : Z;
  text : result str;
  content : list (list N);
  ending : option exn
}.

(** What the script asks of a parsed page.  A selector that finds nothing
    gives [None]; [find_next_sibling] may find nothing under a heading that
    exists, hence the nested option. *)
Record soup := Soup {
  select_one_title : option str;
  select_one_paper_pdf : option str;
  select_one_conference_pdf : option str;
  find_h4_authors : option (option str);
  find_h4_abstract : option (option str);
  select_paper_list : list (str * str)
}.

(** Everything outside the scripts.  The [nat] argument of the two services
    is the number of requests issued before this one; [dump_len data] is
    the number of bytes [json.dump(data, f, indent=4)] writes.  The last
    three fields belong to the file system and the libraries: whether
    [open] can create a file under a path (a name may be too long or
    otherwise refused), the bytes a [csv] writer produces for the lines of
    a table, and what [json.loads] makes of bytes that are valid UTF-8
    ([None] when it raises [JSONDecodeError]). *)
Record platform := MkPlatform {
  os_sep : str;
  session_get : nat → str → result response;
  BeautifulSoup : str → soup;
  dump_len : json → nat;
  acreate : nat → list piece → result json;
  accepts : str → bool;
  csv_text : list csv_line → list N;
  loads : list N → option json
}.

(** A platform whose file system accepts every name, and on which no file
    other than a dump happens to be JSON; the bytes of a table are left
    out. *)
Definition Platform (os_sep : str) (session_get : nat → str → result response)
    (BeautifulSoup : str → soup) (dump_len : json → nat)
    (acreate : nat → list piece → result json) : platform :=
  MkPlatform os_sep session_get BeautifulSoup dump_len acreate
             (λ _, true) (λ _, []) (λ _, None).

(** State and exceptions. *)
Definition M (A : Type) : Type := world → result A * world.

Definition ret {A} (a : A) : M A := λ w, (Ok a, w).

Definition raise {A} (e : exn) : M A := λ w, (Raise e, w).

Definition bind {A B} (m : M A) (k : A → M B) : M B :=
  λ w, match m w with
       | (Ok a, w') => k a w'
       | (Raise e, w') => (Raise e, w')
       end.

(** [try: m except Exception as e: h e]; what [m] did before it raised
    stays done. *)
Definition try_except {A} (m : M A) (h : exn → M A) : M A :=
  λ w, match m w with
       | (Ok a, w') => (Ok a, w')
       | (Raise e, w') => h e w'
       end.

Definition lift {A} (r : result A) : M A := λ w, (r, w).

Declare Scope py_scope.
Delimit Scope py_scope with py.
Notation "'do' x <- m ; k" := (bind m (λ x, k))
  (at level 10, x name, m at level 100, k at level 200) : py_scope.
Notation "m ;; k" := (bind m (λ _, k))
  (at level 100, k at level 200, right associativity) : py_scope.
Open Scope py_scope.

Fixpoint for_each {A} (l : list A) (body : A → M unit) : M unit :=
  match l with
  | [] => ret tt
  | x :: l' => body x ;; for_each l' body
  end.

(** [async with session.get(url) as response] *)
Definition get (P : platform) (url : str) : M response :=
  λ w, (session_get P (requests w) url,
        World (fs w) (S (requests w)) (trace w ++ [Get url])).

(** [await asyncio.sleep(seconds)] *)
Definition sleep (seconds : Z) : M unit :=
  λ w, (Ok tt, World (fs w) (requests w) (trace w ++ [Sleep seconds])).

(** [os.path.exists(path)]; directories are not modelled, so
    [os.path.isfile] is the same test. *)
Definition path_exists (path : str) : M bool :=
  λ w, (Ok (bool_decide (is_Some (fs w !! path))), w).

Definition write_file (path : str) (f : file) : M unit :=
  λ w, (Ok tt, World (<[path := f]> (fs w)) (requests w) (trace w)).

(** [os.path.join(a, b)] for a [b] that is not absolute. *)
Definition os_path_join (P : platform) (a b : str) : str := a ++ os_sep P ++ b.

(** Writing one line through a file opened in mode ['a'] or through the
    still open writer.  Only tables are ever stored under the paths the
    scripts append to; the last case is not reached from such states. *)
Definition append_line (path : str) (line : csv_line) : M unit :=
  λ w, let f := match fs w !! path with
                | None => Table [line]
                | Some (Table lines) => Table (lines ++ [line])
                | Some _ => Table [line]
                end in
       (Ok tt, World (<[path := f]> (fs w)) (requests w) (trace w)).

(** [file.write(chunk)] on a file opened in mode ['wb']. *)
Definition append_chunk (path : str) (chunk : list N) : M unit :=
  λ w, let f := match fs w !! path with
                | Some (Binary chunks) => Binary (chunks ++ [chunk])
                | _ => Binary [chunk]
                end in
       (Ok tt, World (<[path := f]> (fs w)) (requests w) (trace w)).

(** Well-formed UTF-8, as Python's strict decoder accepts it: no overlong
    form, no surrogate, nothing above U+10FFFF. *)
Fixpoint utf8_valid (bytes : list N) : bool :=
  match bytes with
  | [] => true
  | b0 :: r0 =>
      if (b0 <=? 127)%N then utf8_valid r0
      else
        match r0 with
        | [] => false
        | b1 :: r1 =>
            if ((194 <=? b0) && (b0 <=? 223))%N
            then ((128 <=? b1) && (b1 <=? 191))%N && utf8_valid r1
            else
              match r1 with
              | [] => false
              | b2 :: r2 =>
                  if ((224 <=? b0) && (b0 <=? 239))%N
                  then ((if (b0 =? 224)%N then 160 else 128) <=? b1)%N
                       && (b1 <=? (if (b0 =? 237)%N then 159 else 191))%N
                       && (128 <=? b2)%N && (b2 <=? 191)%N
                       && utf8_valid r2
                  else
                    match r2 with
                    | [] => false
                    | b3 :: r3 =>
                        ((240 <=? b0) && (b0 <=? 244))%N
                        && ((if (b0 =? 240)%N then 144 else 128) <=? b1)%N
                        && (b1 <=? (if (b0 =? 244)%N then 143 else 191))%N
                        && (128 <=? b2)%N && (b2 <=? 191)%N
                        && (128 <=? b3)%N && (b3 <=? 191)%N
                        && utf8_valid r3
                    end
              end
        end
  end.

(** The least offset from which every byte is JSON whitespace (space, tab,
    line feed, carriage return). *)
Fixpoint blank_start (bytes : list N) : nat :=
  match bytes with
  | [] => 0
  | b :: rest =>
      match blank_start rest with
      | O => if ((b =? 32) || (b =? 9) || (b =? 10) || (b =? 13))%N
             then 0 else 1
      | S n => S (S n)
      end
  end.

(** A table or a sequence of chunks seen as the bytes it is; the other two
    kinds of content are left as they are. *)
Definition as_text (P : platform) (f : file) : file :=
  let of_bytes (bytes : list N) :=
    Other (length bytes) (blank_start bytes)
          (λ k, utf8_valid (drop k bytes)) (loads P bytes) in
  match f with
  | Table lines => of_bytes (csv_text P lines)
  | Binary chunks => of_bytes (concat chunks)
  | _ => f
  end.

(** [json.load(file)] on a file opened with [encoding="utf-8"]: the whole
    file is decoded first, which raises [UnicodeDecodeError] on bytes that
    are not UTF-8, and parsed next.  The scripts open a file to read only
    after [os.path.exists] said it is there. *)
Definition json_load (P : platform) (path : str) : M json :=
  λ w, match as_text P <$> fs w !! path with
       | Some (Dumped data) => (Ok data, w)
       | Some (Other _ _ utf8_from decodes) =>
           if utf8_from 0%nat
           then match decodes with
                | Some data => (Ok data, w)
                | None => (Raise JSONDecodeError, w)
                end
           else (Raise UnicodeDecodeError, w)
       | _ => (Raise OSError, w)
       end.

(** [file.seek(0); json.dump(data, file, indent=4)] on a file opened in mode
    ['r+']: the content is overwritten from its start and never truncated.
    [data] is the list read from the file with one entry more, so a previous
    dump is shorter than the new one and disappears; of any other content,
    the bytes beyond the new dump stay.  The file then reads as text only if
    these bytes are valid UTF-8 (the dump may end inside a character), and
    decodes only if they are blank. *)
Definition dump_over (P : platform) (old : file) (data : json) : file :=
  match as_text P old with
  | Other len blank_from utf8_from _ =>
      let k := dump_len P data in
      if (len <=? k)%nat then Dumped data
      else Other len (blank_from `max` k)
                 (λ j, if (j <? k)%nat then utf8_from k else utf8_from j)
                 (if (blank_from <=? k)%nat then Some data else None)
  | _ => Dumped data
  end.

Definition seek0_dump (P : platform) (path : str) (data : json) : M unit :=
  λ w, let f := match fs w !! path with
                | Some old => dump_over P old data
                | None => Dumped data
                end in
       (Ok tt, World (<[path := f]> (fs w)) (requests w) (trace w)).

(** [for x in obj] *)
Definition iter (obj : json) : result (list json) :=
  match obj with
  | JList l => Ok l
  | JDict d => Ok ((λ kv, JStr kv.1) <$> d)
  | JStr s => Ok ((λ c, JStr [c]) <$> s)
  | _ => Raise TypeError
  end.

(** [data.append(x)] *)
Definition append (data x : json) : result json :=
  match data with
  | JList l => Ok (JList (l ++ [x]))
  | _ => Raise AttributeError
  end.

(** [writer.writerow(rowdict)] of a [csv.DictWriter]: a key outside
    [fieldnames] raises, a missing one gives the empty string. *)
Definition writerow (fieldnames : list str) (rowdict : list (str * json))
  : result (list json) :=
  if forallb (λ kv, bool_decide (kv.1 ∈ fieldnames)) rowdict
  then Ok ((λ key, default (JStr []) (dict_get key rowdict)) <$> fieldnames)
  else Raise ValueError.

End World.
Export World.

(** ** Scrapping.py: the file name of a title *)

Module Scrapping.

(** The character class of the pattern in [clean_filename]:
    slash, backslash, colon, star, question mark, double quote, less-than,
    greater-than and bar. *)
Definition illegal_chars : list N := [47; 92; 58; 42; 63; 34; 60; 62; 124]%N.

(** [re.sub(pattern, '', name)]: every match of the one-character class is
    dropped. *)
Definition re_sub_illegal (name : str) : str :=
  filter (λ c, c ∉ illegal_chars) name.

Definition clean_filename (name : str) : str :=
  take 200 (re_sub_illegal name).


(** ** Scrapping.py: storage, network and pipeline *)

Definition DOWNLOAD_DIR : str := py "C:/NeurIPS_papers".

Section Pipeline.
Variable P : platform.

Definition CSV_FILE : str := os_path_join P DOWNLOAD_DIR (py "metadata.csv").
Definition JSON_FILE : str := os_path_join P DOWNLOAD_DIR (py "metadata.json").

Definition fieldnames : list str :=
  [py "year"; py "title"; py "authors"; py "abstract"; py "pdf_url"].

Definition store_csv (metadata : list (str * json)) : M unit :=
  do file_exists <- path_exists CSV_FILE;
  (if negb file_exists then append_line CSV_FILE (Header fieldnames)
   else ret tt) ;;
  do row <- lift (writerow fieldnames metadata);
  append_line CSV_FILE (Row row).

Definition store_json (metadata : list (str * json)) : M unit :=
  do file_exists <- path_exists JSON_FILE;
  if file_exists then
    do data <- try_except (json_load P JSON_FILE)
                 (λ e, match e with
                       | JSONDecodeError => ret (JList [])
                       | _ => raise e
                       end);
    do data <- lift (append data (JDict metadata));
    seek0_dump P JSON_FILE data
  else
    write_file JSON_FILE (Dumped (JList [JDict metadata])).

(** [{entry["title"] for entry in data}].  The set is only ever asked about
    a [str], which no title of another type equals, so it keeps the [str]
    titles alone; a list or a dict as title is unhashable. *)
Fixpoint titles_of (entries : list json) : result (gset (list N)) :=
  match entries with
  | [] => Ok ∅
  | entry :: rest =>
      match getitem entry (py "title") with
      | Raise e => Raise e
      | Ok (JList _) | Ok (JDict _) => Raise TypeError
      | Ok title =>
          match titles_of rest with
          | Raise e => Raise e
          | Ok titles =>
              Ok (match title with JStr t => {[t]} ∪ titles | _ => titles end)
          end
      end
  end.

Definition get_processed_titles : M (gset (list N)) :=
  do file_exists <- path_exists JSON_FILE;
  if file_exists then
    try_except
      (do data <- json_load P JSON_FILE;
       do entries <- lift (iter data);
       lift (titles_of entries))
      (λ e, match e with
            | JSONDecodeError => ret ∅
            | _ => raise e
            end)
  else ret ∅.

(** [while chunk := await response.content.read(1024 * 1024):
       file.write(chunk)] *)
Fixpoint write_chunks (file_path : str) (chunks : list (list N))
    (ending : option exn) : M unit :=
  match chunks with
  | [] => match ending with None => ret tt | Some e => raise e end
  | [] :: _ => ret tt
  | chunk :: rest =>
      append_chunk file_path chunk ;; write_chunks file_path rest ending
  end.

(** [open(file_path, 'wb')]: the file is created, or emptied; a path the
    file system refuses raises [OSError]. *)
Definition open_wb (file_path : str) : M unit :=
  if accepts P file_path then write_file file_path (Binary [])
  else raise OSError.

(** One turn of the loop of [download_pdf], up to the [return]: [true] when
    the function returns there. *)
Definition download_attempt (pdf_url file_path : str) : M bool :=
  try_except
    (do response <- get P pdf_url;
     if status response =? 200 then
       open_wb file_path ;;
       write_chunks file_path (content response) (ending response) ;;
       ret true
     else ret false)
    (λ e, ret false).

Fixpoint download_loop (pdf_url file_path : str) (attempts : Z)
    (turns : list Z) : M unit :=
  match turns with
  | [] => ret tt
  | attempt :: rest =>
      do done <- download_attempt pdf_url file_path;
      if done : bool then ret tt
      else
        (if attempt <? attempts - 1 then sleep 5 else ret tt) ;;
        download_loop pdf_url file_path attempts rest
  end.

Definition pdf_path (filename : str) : str :=
  os_path_join P DOWNLOAD_DIR (filename ++ py ".pdf").

Definition download_pdf (pdf_url filename : str) (attempts : Z) : M unit :=
  let file_path := pdf_path filename in
  do file_exists <- path_exists file_path;
  if file_exists then ret tt
  else download_loop pdf_url file_path attempts (range attempts).

(** One turn of the loop of [fetch]: the page when the function returns. *)
Definition fetch_attempt (url : str) : M (option str) :=
  try_except
    (do response <- get P url;
     if status response =? 200 then
       do html <- lift (text response);
       ret (Some html)
     else ret None)
    (λ e, ret None).

Fixpoint fetch_loop (url : str) (retries : Z) (turns : list Z)
  : M (option str) :=
  match turns with
  | [] => ret None
  | attempt :: rest =>
      do html <- fetch_attempt url;
      match html with
      | Some html => ret (Some html)
      | None =>
          (if attempt <? retries - 1 then sleep 5 else ret tt) ;;
          fetch_loop url retries rest
      end
  end.

Definition fetch (url : str) (retries : Z) : M (option str) :=
  fetch_loop url retries (range retries).

Definition site : str := py "https://papers.nips.cc".

(** [heading.find_next_sibling("p").get_text(strip=True) if heading
    else fallback] *)
Definition section_text (heading : option (option str)) (fallback : str)
  : result str :=
  match heading with
  | Some (Some t) => Ok t
  | Some None => Raise AttributeError
  | None => Ok fallback
  end.

Definition process_document (doc_url : str) (year : Z)
    (processed_titles : gset (list N)) : M unit :=
  do response <- get P doc_url;
  do html_content <- lift (text response);
  let page := BeautifulSoup P html_content in
  match select_one_title page with
  | None => ret tt
  | Some title_text =>
      let title := clean_filename (strip title_text) in
      if decide (title ∈ processed_titles) then ret tt
      else
        let pdf_element :=
          match select_one_paper_pdf page with
          | Some e => Some e
          | None => select_one_conference_pdf page
          end in
        let pdf_url := (λ href, site ++ href) <$> pdf_element in
        match pdf_url with
        | Some url => download_pdf url title 3
        | None => ret tt
        end ;;
        do authors <- lift (section_text (find_h4_authors page)
                              (py "Authors not available"));
        do abstract <- lift (section_text (find_h4_abstract page)
                               (py "Abstract not available"));
        let metadata :=
          [(py "year", JInt year);
           (py "title", JStr title);
           (py "authors", JStr authors);
           (py "abstract", JStr abstract);
           (py "pdf_url", JStr (default (py "Unavailable") pdf_url))] in
        store_csv metadata ;;
        store_json metadata
  end.

Definition base_url (year : Z) : str :=
  py "https://papers.nips.cc/paper_files/paper/" ++ str_of_int year.

Definition fetch_yearly_data (year : Z) : M unit :=
  do html_content <- fetch (base_url year) 3;
  match html_content with
  | None | Some [] => ret tt
  | Some html_content =>
      let page := BeautifulSoup P html_content in
      let papers := select_paper_list page in
      do processed_titles <- get_processed_titles;
      for_each papers (λ paper,
        let title := paper.1 in
        let doc_url := site ++ paper.2 in
        if decide (title ∈ processed_titles) then ret tt
        else process_document doc_url year processed_titles)
  end.

Definition main : M unit :=
  for_each [2018; 2019; 2020; 2021; 2022; 2023]
    (λ year, fetch_yearly_data year ;; sleep 5).

End Pipeline.

End Scrapping.
Export Scrapping.

(** ** annotate_dataset.py *)

Module Annotate.

Definition INPUT_JSON_FILE : str := py "C:/NeurIPS_papers/metadata.json".
Definition OUTPUT_CSV_FILE : str := py "C:/NeurIPS_papers/annotated_metadata.csv".

Definition ANNOTATION_CATEGORIES : list str :=
  [py "Deep Learning";
   py "Computer Vision";
   py "Reinforcement Learning";
   py "Natural Language Processing";
   py "Optimization"].

(** [', '.join(l)] *)
Fixpoint join (sep : str) (l : list str) : str :=
  match l with
  | [] => []
  | [x] => x
  | x :: l' => x ++ sep ++ join sep l'
  end.

Definition prompt (title abstract : json) : list piece :=
  [Lit (py "The following research paper has a title and an abstract. ");
   Lit (py "Classify the paper into one of these categories: ");
   Lit (join (py ", ") ANNOTATION_CATEGORIES);
   Lit (py "." ++ [10; 10]%N);
   Lit (py "Title: "); Fmt title; Lit [10%N];
   Lit (py "Abstract: "); Fmt abstract; Lit [10; 10]%N;
   Lit (py "Category:")].

(** [obj.strip()] *)
Definition strip_of (obj : json) : result str :=
  match obj with
  | JStr s => Ok (strip s)
  | _ => Raise AttributeError
  end.

(** [paper.get(key, fallback)] *)
Definition get_or (paper : json) (key : str) (fallback : json) : result json :=
  match paper with
  | JDict d => Ok (default fallback (dict_get key d))
  | _ => Raise AttributeError
  end.

(** [paper[key] = v] *)
Definition setitem (paper : json) (key : str) (v : json)
  : result (list (str * json)) :=
  match paper with
  | JDict d => Ok (dict_set key v d)
  | _ => Raise TypeError
  end.

Section Annotation.
Variable P : platform.

(** [await openai.ChatCompletion.acreate(...)] *)
Definition chat_completion (request : list piece) : M json :=
  λ w, (acreate P (requests w) request,
        World (fs w) (S (requests w)) (trace w ++ [ChatCompletion request])).

(** [response["choices"][0]["message"]["content"].strip()] *)
Definition first_answer (response : json) : result str :=
  match getitem response (py "choices") with
  | Raise e => Raise e
  | Ok choices =>
      match getitem0 choices with
      | Raise e => Raise e
      | Ok choice =>
          match getitem choice (py "message") with
          | Raise e => Raise e
          | Ok message =>
              match getitem message (py "content") with
              | Raise e => Raise e
              | Ok content => strip_of content
              end
          end
      end
  end.

Definition annotate_with_gemini (title abstract : json) : M str :=
  try_except
    (do response <- chat_completion (prompt title abstract);
     lift (first_answer response))
    (λ e, ret (py "Uncategorized")).

Definition annotated_fieldnames : list str :=
  [py "year"; py "title"; py "authors"; py "abstract"; py "pdf_url";
   py "category"].

(** The body of the loop of [annotate_dataset]. *)
Definition annotate_paper (paper : json) : M unit :=
  do title <- lift (get_or paper (py "title") (JStr (py "Unknown Title")));
  do abstract <- lift (get_or paper (py "abstract")
                         (JStr (py "Abstract not available")));
  do category <- annotate_with_gemini title abstract;
  do paper <- lift (setitem paper (py "category") (JStr category));
  do row <- lift (writerow annotated_fieldnames paper);
  append_line OUTPUT_CSV_FILE (Row row).

Definition annotate_dataset : M unit :=
  do input_exists <- path_exists INPUT_JSON_FILE;
  if negb input_exists then ret tt
  else
    do papers <- try_except
                   (do papers <- json_load P INPUT_JSON_FILE;
                    ret (Some papers))
                   (λ e, match e with
                         | JSONDecodeError => ret None
                         | _ => raise e
                         end);
    match papers with
    | None => ret tt
    | Some papers =>
        write_file OUTPUT_CSV_FILE (Table []) ;;
        append_line OUTPUT_CSV_FILE (Header annotated_fieldnames) ;;
        do papers <- lift (iter papers);
        for_each papers annotate_paper
    end.

End Annotation.

End Annotate.
Export Annotate.

(** ** Vocabulary of the statements *)

Module Spec.

(** [m] leaves the world in relation [Q] to the one it started from. *)
Definition keeps {A} (Q : world → world → Prop) (m : M A) : Prop :=
  ∀ w, Q w (m w).2.

(** The file at [path] is as it was: same existence, same content. *)
Definition same_file (path : list N) (w w' : world) : Prop :=
  fs w' !! path = fs w !! path.

(** No file changed at all. *)
Definition same_disk (w w' : world) : Prop := fs w' = fs w.

(** The classification call fails at the call level: the request raises, or
    the answer cannot be taken out of the response. *)
Definition call_fails (P : platform) (w : world) (title abstract : json)
  : Prop :=
  match acreate P (requests w) (prompt title abstract) with
  | Raise _ => True
  | Ok response => ∃ e, first_answer response = Raise e
  end.

(** What the classifier adapter hands back: the trimmed first answer of the
    service, whatever it says, and the sentinel when the call fails. *)
Definition answer_or_sentinel (P : platform) (w : world)
    (title abstract : json) : list N :=
  match acreate P (requests w) (prompt title abstract) with
  | Raise _ => py "Uncategorized"
  | Ok response =>
      match first_answer response with
      | Ok answer => answer
      | Raise _ => py "Uncategorized"
      end
  end.

(** The labels the spec allows in the category column. *)
Definition allowed_categories : list (list N) :=
  ANNOTATION_CATEGORIES ++ [py "Uncategorized"].

(** A GET of [fetch] fails: the request raises (timeout, network error),
    the status is not 200, or reading the body raises. *)
Definition fetch_fails (outcome : result response) : Prop :=
  match outcome with
  | Raise _ => True
  | Ok r => status r ≠ 200 ∨ ∃ e, text r = Raise e
  end.

(** [n] GETs of [url] with a 5 second sleep between consecutive ones. *)
Fixpoint attempts_trace (url : list N) (n : nat) : list event :=
  match n with
  | O => []
  | S O => [Get url]
  | S (S _ as n') => Get url :: Sleep 5 :: attempts_trace url n'
  end.

(** Number of GETs in a trace. *)
Fixpoint gets (t : list event) : nat :=
  match t with
  | [] => 0
  | Get _ :: t' => S (gets t')
  | _ :: t' => gets t'
  end.


(** The page the [n]-th request shows of [url], as [process_document]
    reads it: any status will do. *)
Definition page_at (P : platform) (n : nat) (url : list N) : result soup :=
  match session_get P n url with
  | Raise e => Raise e
  | Ok r =>
      match text r with
      | Raise e => Raise e
      | Ok html => Ok (BeautifulSoup P html)
      end
  end.

(** The first PDF link of a page, made absolute. *)
Definition pdf_url_of (page : soup) : option (list N) :=
  (λ href, site ++ href)
    <$> match select_one_paper_pdf page with
        | Some e => Some e
        | None => select_one_conference_pdf page
        end.

Definition record (year : Z) (title authors abstract : list N)
    (pdf_url : option (list N)) : list (list N * json) :=
  [(py "year", JInt year);
   (py "title", JStr title);
   (py "authors", JStr authors);
   (py "abstract", JStr abstract);
   (py "pdf_url", JStr (default (py "Unavailable") pdf_url))].

(** What [process_document] makes of a page against a set of known titles:
    nothing to store ([None]), a record to store, or an exception. *)
Definition extract (year : Z) (known : gset (list N)) (page : soup)
  : result (option (list (list N * json))) :=
  match select_one_title page with
  | None => Ok None
  | Some title_text =>
      let title := clean_filename (strip title_text) in
      if decide (title ∈ known) then Ok None
      else
        match section_text (find_h4_authors page)
                (py "Authors not available") with
        | Raise e => Raise e
        | Ok authors =>
            match section_text (find_h4_abstract page)
                    (py "Abstract not available") with
            | Raise e => Raise e
            | Ok abstract =>
                Ok (Some (record year title authors abstract
                            (pdf_url_of page)))
            end
        end
  end.

(** The structured store holds exactly [entries]: it is absent and there are
    none, or it is the dump of their list. *)
Definition store_holds (P : platform) (w : world) (entries : list json)
  : Prop :=
  match fs w !! JSON_FILE P with
  | None => entries = []
  | Some (Dumped (JList l)) => l = entries
  | Some _ => False
  end.

(** The tabular store holds exactly [rows] under its header: it is absent
    and there are none, or it is the header line followed by them. *)
Definition table_holds (P : platform) (w : world) (rows : list (list json))
  : Prop :=
  match fs w !! CSV_FILE P with
  | None => rows = []
  | Some (Table lines) => lines = Header fieldnames :: (Row <$> rows)
  | Some _ => False
  end.

(** The cells of a record's row. *)
Definition cells_of (m : list (list N * json)) : list json :=
  (λ key, default (JStr []) (dict_get key m)) <$> fieldnames.

(** What one reference of the index page adds to the stores on a static
    site, given the known titles. *)
Definition outcome (P : platform) (year : Z) (known : gset (list N))
    (paper : list N * list N)
  : result (option (list (list N * json))) :=
  if decide (paper.1 ∈ known) then Ok None
  else
    match page_at P 0 (site ++ paper.2) with
    | Raise e => Raise e
    | Ok page => extract year known page
    end.





(** A GET of [download_pdf] fails before any byte of the body is read: the
    request raises or the status is not 200. *)
Definition request_fails (outcome : result response) : Prop :=
  match outcome with
  | Raise _ => True
  | Ok r => status r ≠ 200
  end.

(** Both stores of [w'] hold what they held, [entries] and [rows], followed
    by the same added records, in the same order. *)
Definition grown (P : platform) (entries : list json)
    (rows : list (list json)) (w' : world) : Prop :=
  ∃ added,
    store_holds P w' (entries ++ (JDict <$> added))
    ∧ table_holds P w' (rows ++ (cells_of <$> added)).

(** [m] only ever appends, and the same records to both stores. *)
Definition appends {A} (P : platform) (m : M A) : Prop :=
  ∀ w entries rows,
    store_holds P w entries → table_holds P w rows →
    grown P entries rows (m w).2.





(** The text neither starts nor ends with a whitespace character. *)
Definition trimmed (s : list N) : Prop :=
  match head s with Some c => is_space c = false | None => True end
  ∧ match last s with Some c => is_space c = false | None => True end.

End Spec.
Export Spec.

(** ** Concrete platforms and pages for the examples *)

Module Examples.

Definition no_page : soup := Soup None None None None None [].

Definition not_found : response := Response 404 (Ok []) [] None.

(** A service that answers with a label outside the fixed set. *)
Definition robotics_answer : json :=
  JDict [(py "choices",
          JList [JDict [(py "message",
                         JDict [(py "role", JStr (py "assistant"));
                                (py "content", JStr (py " Robotics "))])]])].

Definition robotics : platform :=
  Platform (py "/") (λ _ _, Ok not_found) (λ _, no_page) (λ _, 0%nat)
           (λ _ _, Ok robotics_answer).

(** A service that is down. *)
Definition service_down : platform :=
  Platform (py "/") (λ _ _, Raise ClientError) (λ _, no_page) (λ _, 0%nat)
           (λ _ _, Raise APIError).

Definition one_paper : json :=
  JDict [(py "year", JInt 2019);
         (py "title", JStr (py "Walking Robots"));
         (py "authors", JStr (py "A. Author"));
         (py "abstract", JStr (py "We walk."));
         (py "pdf_url", JStr (py "Unavailable"))].

Definition store_with_one_paper : world :=
  World {[ INPUT_JSON_FILE := Dumped (JList [one_paper]) ]} 0 [].

Definition fresh : world := World ∅ 0 [].

(** A server whose every answer is status 200 with a body that breaks after
    the first chunk. *)
Definition broken_body : response :=
  Response 200 (Raise ClientError) [py "%PDF-1.4"] (Some ClientError).

Definition broken_stream : platform :=
  Platform (py "/") (λ _ _, Ok broken_body) (λ _, no_page) (λ _, 0%nat)
           (λ _ _, Raise APIError).

(** A document page titled "Paper X", without an "Authors" heading, with
    an "Abstract" heading followed by "Abc", and no PDF link. *)
Definition paper_x_page : soup :=
  Soup (Some (py "Paper X")) None None None (Some (Some (py "Abc"))) [].

Definition paper_x_site : platform :=
  Platform (py "/")
           (λ _ _, Ok (Response 200 (Ok (py "<html>")) [] None))
           (λ _, paper_x_page) (λ _, 0%nat) (λ _ _, Raise APIError).

Definition paper_x_url : list N :=
  py "https://papers.nips.cc/paper_files/paper/2019/hash/x-Abstract.html".

(** A static site whose index page of any year lists two references, both
    leading to a page titled "Same Title". *)
Definition twin_index : soup :=
  Soup None None None None None
       [(py "First entry", py "/paper_files/paper/2019/hash/a-Abstract.html");
        (py "Second entry", py "/paper_files/paper/2019/hash/b-Abstract.html")].

Definition twin_page : soup :=
  Soup (Some (py "Same Title")) None None
       (Some (Some (py "A. Author"))) (Some (Some (py "Abc"))) [].

Definition twin_site : platform :=
  Platform (py "/")
           (λ _ url,
              if decide (url = base_url 2019)
              then Ok (Response 200 (Ok (py "index")) [] None)
              else Ok (Response 200 (Ok (py "document")) [] None))
           (λ html, if decide (html = py "index") then twin_index
                    else twin_page)
           (λ _, 0%nat) (λ _ _, Raise APIError).

Definition twin_record : list (list N * json) :=
  [(py "year", JInt 2019);
   (py "title", JStr (py "Same Title"));
   (py "authors", JStr (py "A. Author"));
   (py "abstract", JStr (py "Abc"));
   (py "pdf_url", JStr (py "Unavailable"))].

(** Worlds whose structured store is not a dump of records: an empty file,
    a long text [json.load] rejects, the object [{}], and a list with an
    entry that has no title. *)
Definition empty_store : world :=
  World {[ JSON_FILE paper_x_site := Other 0 0 (λ _, true) None ]} 0 [].

Definition garbled_store : world :=
  World {[ JSON_FILE paper_x_site := Other 1000 1000 (λ _, true) None ]} 0 [].

Definition object_store : world :=
  World {[ JSON_FILE paper_x_site := Dumped (JDict []) ]} 0 [].

Definition untitled_store : world :=
  World {[ JSON_FILE paper_x_site
             := Dumped (JList [JDict twin_record;
                               JDict [(py "year", JInt 2019)]]) ]} 0 [].

(** A server that fails twice and then serves a page, and one that serves
    a two-chunk PDF. *)
Definition third_time_lucky : platform :=
  Platform (py "/")
           (λ n _, if (n <? 2)%nat then Raise TimeoutError
                   else Ok (Response 200 (Ok (py "<html>")) [] None))
           (λ _, no_page) (λ _, 0%nat) (λ _ _, Raise APIError).

Definition pdf_body : response :=
  Response 200 (Raise UnicodeDecodeError) [py "%PDF-1.4"; py "%%EOF"] None.

Definition pdf_server : platform :=
  Platform (py "/") (λ _ _, Ok pdf_body) (λ _, no_page) (λ _, 0%nat)
           (λ _ _, Raise APIError).

Definition paper_pdf_url : list N :=
  py "https://papers.nips.cc/paper_files/paper/2019/file/x-Paper.pdf".

(** A document page with an "Authors" heading and no paragraph after it. *)
Definition headless_page : soup :=
  Soup (Some (py "Paper X")) None None (Some None) (Some (Some (py "Abc"))) [].

Definition headless_site : platform :=
  Platform (py "/")
           (λ _ _, Ok (Response 200 (Ok (py "<html>")) [] None))
           (λ _, headless_page) (λ _, 0%nat) (λ _ _, Raise APIError).




(** The text [json.dump(v, f, indent=4)] writes: ASCII only, four spaces
    per level, one item or key per line. *)
Definition hex_digit (n : N) : N :=
  (if n <? 10 then 48 + n else 87 + n)%N.

Definition u_escape (c : N) : list N :=
  [92; 117; hex_digit (c / 4096); hex_digit (c / 256 mod 16);
   hex_digit (c / 16 mod 16); hex_digit (c mod 16)]%N.

Definition escape (c : N) : list N :=
  (if c =? 34 then [92; 34]
   else if c =? 92 then [92; 92]
   else if c =? 10 then [92; 110]
   else if c =? 13 then [92; 114]
   else if c =? 9 then [92; 116]
   else if c =? 8 then [92; 98]
   else if c =? 12 then [92; 102]
   else if (32 <=? c) && (c <=? 126) then [c]
   else if c <? 65536 then u_escape c
   else u_escape (55296 + (c - 65536) / 1024)
        ++ u_escape (56320 + (c - 65536) mod 1024))%N.

Definition quoted (s : list N) : list N :=
  [34%N] ++ concat (escape <$> s) ++ [34%N].

Definition newline (level : nat) : list N :=
  10%N :: replicate (4 * level) 32%N.

Fixpoint json_dumps (level : nat) (v : json) : list N :=
  match v with
  | JNull => py "null"
  | JBool b => if b then py "true" else py "false"
  | JInt z => str_of_int z
  | JFloat literal => literal
  | JStr s => quoted s
  | JList [] => py "[]"
  | JList (x :: l) =>
      py "[" ++ newline (S level) ++ json_dumps (S level) x
      ++ (fix items (l : list json) : list N :=
            match l with
            | [] => []
            | x :: l =>
                py "," ++ newline (S level) ++ json_dumps (S level) x
                ++ items l
            end) l
      ++ newline level ++ py "]"
  | JDict [] => py "{}"
  | JDict ((k, x) :: d) =>
      py "{" ++ newline (S level) ++ quoted k ++ py ": "
      ++ json_dumps (S level) x
      ++ (fix items (d : list (list N * json)) : list N :=
            match d with
            | [] => []
            | (k, x) :: d =>
                py "," ++ newline (S level) ++ quoted k ++ py ": "
                ++ json_dumps (S level) x ++ items d
            end) d
      ++ newline level ++ py "}"
  end.

Definition dump_size (v : json) : nat := length (json_dumps 0 v).

(** A static site whose index page lists two papers: a short one, and
    one whose abstract alone is 1200 characters long. *)
Definition short_paper_href : list N :=
  py "/paper_files/paper/2019/hash/a-Abstract.html".

Definition sequel_index : soup :=
  Soup None None None None None
       [(py "Short Paper", short_paper_href);
        (py "Long Paper", py "/paper_files/paper/2019/hash/b-Abstract.html")].

Definition long_abstract : list N := replicate 1200 97%N.

Definition short_page : soup :=
  Soup (Some (py "Short Paper")) None None
       (Some (Some (py "A. Author"))) (Some (Some (py "Abc"))) [].

Definition long_page : soup :=
  Soup (Some (py "Long Paper")) None None
       (Some (Some (py "B. Author"))) (Some (Some long_abstract)) [].

Definition sequel_site : platform :=
  Platform (py "/")
           (λ _ url,
              if decide (url = base_url 2019)
              then Ok (Response 200 (Ok (py "index")) [] None)
              else if decide (url = site ++ short_paper_href)
              then Ok (Response 200 (Ok (py "short")) [] None)
              else Ok (Response 200 (Ok (py "long")) [] None))
           (λ html, if decide (html = py "index") then sequel_index
                    else if decide (html = py "short") then short_page
                    else long_page)
           dump_size (λ _ _, Raise APIError).



(** A structured store of 2001 bytes that is text and not JSON: an "x"
    followed by a thousand "é" (two bytes each). *)
Definition accented_bytes : list N :=
  120%N :: concat (replicate 1000 [195; 169]%N).

Definition accented_store : world :=
  World {[ JSON_FILE sequel_site
             := Other 2001 2001 (λ k, utf8_valid (drop k accented_bytes))
                      None ]} 0 [].

(** An input of the annotation pass that stops after its first bracket. *)
Definition half_written_input : world :=
  World {[ INPUT_JSON_FILE := Binary [py "["] ]} 0 [].

End Examples.
Export Examples.

(** ** Properties of [clean_filename] *)

Lemma re_sub_illegal_clean (name : str) :
  Forall (λ c, c ∉ illegal_chars) (re_sub_illegal name).
Proof.
  apply Forall_forall. intros c Hc.
  by apply list_elem_of_filter in Hc as [? _].
Qed.

Lemma re_sub_illegal_id (name : str) :
  Forall (λ c, c ∉ illegal_chars) name → re_sub_illegal name = name.
Proof.
  unfold re_sub_illegal. intros H.
  induction H as [|c l Hc _ IH]; [done|].
  rewrite filter_cons_True by done. by rewrite IH.
Qed.

Lemma clean_filename_chars (name : str) :
  Forall (λ c, c ∉ illegal_chars) (clean_filename name).
Proof. unfold clean_filename. apply Forall_take, re_sub_illegal_clean. Qed.

Lemma clean_filename_length (name : str) :
  (length (clean_filename name) ≤ 200)%nat.
Proof. unfold clean_filename. rewrite length_take. lia. Qed.

Example illegal_chars_spelled :
  illegal_chars = py "/\:*?" ++ [34%N] ++ py "<>|".
Proof. reflexivity. Qed.

Example clean_filename_of_spec_example :
  clean_filename (py "A/B:C?" ++ [34%N] ++ py "D") = py "ABCD".
Proof. reflexivity. Qed.

(** C7: the cleaned name holds none of the nine characters and is at most
    200 characters long. *)
Theorem clean_filename_safe (name : str) :
  Forall (λ c, c ∉ illegal_chars) (clean_filename name)
  ∧ (length (clean_filename name) ≤ 200)%nat.
Proof. split; [apply clean_filename_chars | apply clean_filename_length]. Qed.

(** C10: cleaning a cleaned name changes nothing. *)
Theorem clean_filename_idempotent (name : str) :
  clean_filename (clean_filename name) = clean_filename name.
Proof.
  unfold clean_filename at 1.
  rewrite re_sub_illegal_id by apply clean_filename_chars.
  apply take_ge, clean_filename_length.
Qed.

(** ** Reasoning about what a computation leaves in place *)

Section Keeps.
Context (Q : world → world → Prop).
Hypothesis Q_refl : ∀ w, Q w w.
Hypothesis Q_trans : ∀ w1 w2 w3, Q w1 w2 → Q w2 w3 → Q w1 w3.

Lemma keeps_ret {A} (a : A) : keeps Q (ret a).
Proof. intros w. apply Q_refl. Qed.

Lemma keeps_raise {A} (e : exn) : keeps Q (@raise A e).
Proof. intros w. apply Q_refl. Qed.

Lemma keeps_lift {A} (r : result A) : keeps Q (lift r).
Proof. intros w. apply Q_refl. Qed.

Lemma keeps_path_exists (path : list N) : keeps Q (path_exists path).
Proof. intros w. apply Q_refl. Qed.

Lemma keeps_json_load P (path : list N) : keeps Q (json_load P path).
Proof.
  intros w. unfold json_load.
  destruct (as_text P <$> fs w !! path) as [[| ? ? u []| |]|];
    try destruct (u 0%nat); apply Q_refl.
Qed.

Lemma keeps_bind {A B} (m : M A) (k : A → M B) :
  keeps Q m → (∀ a, keeps Q (k a)) → keeps Q (bind m k).
Proof.
  intros Hm Hk w. unfold bind. specialize (Hm w).
  destruct (m w) as [[a|e] w']; simpl in *; [|done].
  eapply Q_trans; [exact Hm | apply Hk].
Qed.

Lemma keeps_try_except {A} (m : M A) (h : exn → M A) :
  keeps Q m → (∀ e, keeps Q (h e)) → keeps Q (try_except m h).
Proof.
  intros Hm Hh w. unfold try_except. specialize (Hm w).
  destruct (m w) as [[a|e] w']; simpl in *; [done|].
  eapply Q_trans; [exact Hm | apply Hh].
Qed.

Lemma keeps_for_each {A} (l : list A) (body : A → M unit) :
  (∀ x, keeps Q (body x)) → keeps Q (for_each l body).
Proof.
  intros Hbody. induction l as [|x l IH]; simpl.
  - apply keeps_ret.
  - apply keeps_bind; [apply Hbody | intros _; exact IH].
Qed.

End Keeps.

Lemma same_file_refl path w : same_file path w w.
Proof. done. Qed.

Lemma same_file_trans path w1 w2 w3 :
  same_file path w1 w2 → same_file path w2 w3 → same_file path w1 w3.
Proof. unfold same_file. congruence. Qed.

Lemma same_disk_refl w : same_disk w w.
Proof. done. Qed.

Lemma same_disk_trans w1 w2 w3 :
  same_disk w1 w2 → same_disk w2 w3 → same_disk w1 w3.
Proof. unfold same_disk. congruence. Qed.

Lemma same_disk_file {A} (m : M A) path :
  keeps same_disk m → keeps (same_file path) m.
Proof. intros H w. unfold same_file. by rewrite (H w). Qed.

Lemma write_file_other path path' f :
  path ≠ path' → keeps (same_file path') (write_file path f).
Proof. intros Hne w. unfold same_file. simpl. by rewrite lookup_insert_ne. Qed.

Lemma append_line_other path path' line :
  path ≠ path' → keeps (same_file path') (append_line path line).
Proof. intros Hne w. unfold same_file. simpl. by rewrite lookup_insert_ne. Qed.

Lemma append_chunk_other path path' chunk :
  path ≠ path' → keeps (same_file path') (append_chunk path chunk).
Proof. intros Hne w. unfold same_file. simpl. by rewrite lookup_insert_ne. Qed.

Lemma seek0_dump_other P path path' data :
  path ≠ path' → keeps (same_file path') (seek0_dump P path data).
Proof. intros Hne w. unfold same_file. simpl. by rewrite lookup_insert_ne. Qed.

Lemma get_same_disk P url : keeps same_disk (get P url).
Proof. by intros w. Qed.

Lemma sleep_same_disk seconds : keeps same_disk (sleep seconds).
Proof. by intros w. Qed.

Lemma chat_completion_same_disk P request :
  keeps same_disk (chat_completion P request).
Proof. by intros w. Qed.

Create HintDb keeps.
#[local] Hint Resolve same_file_refl same_file_trans same_disk_refl
  same_disk_trans : keeps.
#[local] Hint Resolve keeps_ret keeps_raise keeps_lift keeps_path_exists
  keeps_json_load get_same_disk sleep_same_disk chat_completion_same_disk
  : keeps.

(** Splitting a computation along its binds, handlers and loops. *)
Ltac k_done := solve [eauto with keeps].
Tactic Notation "k_bind" ident(x) :=
  apply keeps_bind; [k_done | | intros x].
Tactic Notation "k_try" ident(e) :=
  apply keeps_try_except; [k_done | | intros e].
Tactic Notation "k_each" ident(x) :=
  apply keeps_for_each; [k_done | k_done | intros x].

(** ** annotate_dataset.py: the classifier adapter *)

Lemma annotate_with_gemini_run P title abstract w :
  annotate_with_gemini P title abstract w
  = (Ok (answer_or_sentinel P w title abstract),
     World (fs w) (S (requests w))
           (trace w ++ [ChatCompletion (prompt title abstract)])).
Proof.
  unfold annotate_with_gemini, answer_or_sentinel, try_except, bind,
    chat_completion, lift, ret.
  simpl. destruct (acreate P (requests w) (prompt title abstract)) as [r|e];
    [|done].
  by destruct (first_answer r).
Qed.

(** C5: the adapter always returns a label, and when the call fails at the
    call level the label is exactly "Uncategorized". *)
Theorem classifier_fallback P title abstract w :
  (∃ label, (annotate_with_gemini P title abstract w).1 = Ok label)
  ∧ (call_fails P w title abstract →
     (annotate_with_gemini P title abstract w).1 = Ok (py "Uncategorized")).
Proof.
  rewrite annotate_with_gemini_run. simpl. split; [eauto|].
  unfold call_fails, answer_or_sentinel.
  destruct (acreate P (requests w) (prompt title abstract)) as [r|e]; [|done].
  by intros [e ->].
Qed.

Lemma classifier_fallback_witness :
  call_fails service_down store_with_one_paper
             (JStr (py "Walking Robots")) (JStr (py "We walk."))
  ∧ (annotate_with_gemini service_down (JStr (py "Walking Robots"))
       (JStr (py "We walk.")) store_with_one_paper).1
    = Ok (py "Uncategorized").
Proof.
  split; [exact I|].
  apply (classifier_fallback service_down (JStr (py "Walking Robots"))
           (JStr (py "We walk.")) store_with_one_paper).
  exact I.
Defined.

Lemma annotate_with_gemini_same_disk P title abstract :
  keeps same_disk (annotate_with_gemini P title abstract).
Proof. intros w. by rewrite annotate_with_gemini_run. Qed.

Lemma dict_get_set key v d : dict_get key (dict_set key v d) = Some v.
Proof.
  induction d as [|[k x] d IH]; simpl.
  - by rewrite decide_True.
  - destruct (decide (k = key)) as [->|Hne]; simpl.
    + by rewrite decide_True.
    + by rewrite decide_False.
Qed.

Lemma writerow_last fieldnames key rowdict cells :
  writerow (fieldnames ++ [key]) rowdict = Ok cells →
  last cells = Some (default (JStr []) (dict_get key rowdict)).
Proof.
  unfold writerow. case_match; [|done]. intros [= <-].
  rewrite fmap_app. apply last_snoc.
Qed.

Lemma append_line_last path line w :
  ∃ lines, fs (append_line path line w).2 !! path
           = Some (Table (lines ++ [line])).
Proof.
  simpl. rewrite lookup_insert_eq.
  destruct (fs w !! path) as [[| | lines |]|];
    first [by exists lines | by exists []].
Qed.

(** C6, counterexample: the service answers " Robotics " and the record is
    written with category "Robotics", which is no member of the label
    set and not the sentinel. *)
Lemma category_outside_label_set :
  fs (annotate_dataset robotics store_with_one_paper).2 !! OUTPUT_CSV_FILE
  = Some (Table [Header annotated_fieldnames;
                 Row [JInt 2019; JStr (py "Walking Robots");
                      JStr (py "A. Author"); JStr (py "We walk.");
                      JStr (py "Unavailable"); JStr (py "Robotics")]])
  ∧ py "Robotics" ∉ allowed_categories.
Proof.
  split.
  - by vm_compute.
  - apply (bool_decide_unpack _). by vm_compute.
Qed.

(** C6, as amended: the category the adapter returns is the trimmed first
    answer of the classification call, unchecked, or "Uncategorized" when
    the call fails; and that is the last cell of the row the annotation
    pass writes for the paper. *)
Theorem annotated_category P d w :
  let title := default (JStr (py "Unknown Title")) (dict_get (py "title") d) in
  let abstract := default (JStr (py "Abstract not available"))
                    (dict_get (py "abstract") d) in
  let category := answer_or_sentinel P w title abstract in
  (annotate_with_gemini P title abstract w).1 = Ok category
  ∧ ((annotate_paper P (JDict d) w).1 = Ok tt →
     ∃ lines cells,
       fs (annotate_paper P (JDict d) w).2 !! OUTPUT_CSV_FILE
       = Some (Table (lines ++ [Row cells]))
       ∧ last cells = Some (JStr category)).
Proof.
  intros title abstract category. split.
  - by rewrite annotate_with_gemini_run.
  - unfold annotate_paper, bind, lift. simpl.
    fold title abstract. rewrite annotate_with_gemini_run. fold category.
    destruct (writerow _ _) as [cells|e] eqn:Hrow; [|done]. intros _.
    destruct (append_line_last OUTPUT_CSV_FILE (Row cells)
                (World (fs w) (S (requests w))
                   (trace w ++ [ChatCompletion (prompt title abstract)])))
      as [lines Hlines].
    exists lines, cells. split; [exact Hlines|].
    change annotated_fieldnames
      with ([py "year"; py "title"; py "authors"; py "abstract"; py "pdf_url"]
            ++ [py "category"]) in Hrow.
    apply writerow_last in Hrow. by rewrite dict_get_set in Hrow.
Qed.

Lemma annotated_category_witness :
  (annotate_paper robotics one_paper store_with_one_paper).1 = Ok tt
  ∧ ∃ lines cells,
      fs (annotate_paper robotics one_paper store_with_one_paper).2
        !! OUTPUT_CSV_FILE
      = Some (Table (lines ++ [Row cells]))
      ∧ last cells = Some (JStr (py "Robotics")).
Proof.
  split; [by vm_compute|].
  apply (annotated_category robotics
           [(py "year", JInt 2019);
            (py "title", JStr (py "Walking Robots"));
            (py "authors", JStr (py "A. Author"));
            (py "abstract", JStr (py "We walk."));
            (py "pdf_url", JStr (py "Unavailable"))]
           store_with_one_paper).
  by vm_compute.
Defined.

(** ** annotate_dataset.py: the store it reads *)

Lemma output_is_not_input : OUTPUT_CSV_FILE ≠ INPUT_JSON_FILE.
Proof. by vm_compute. Qed.

Lemma annotate_paper_input P paper :
  keeps (same_file INPUT_JSON_FILE) (annotate_paper P paper).
Proof.
  pose proof output_is_not_input.
  unfold annotate_paper.
  k_bind title; [k_done|]. k_bind abstract; [k_done|].
  k_bind category; [apply same_disk_file, annotate_with_gemini_same_disk|].
  k_bind paper'; [k_done|]. k_bind row; [k_done|].
  by apply append_line_other.
Qed.

(** C9: whatever the store holds and whatever the service answers, the
    annotation pass leaves the structured store it reads as it was. *)
Theorem annotation_leaves_store_untouched P w :
  fs (annotate_dataset P w).2 !! INPUT_JSON_FILE = fs w !! INPUT_JSON_FILE.
Proof.
  pose proof output_is_not_input.
  revert w. change (keeps (same_file INPUT_JSON_FILE) (annotate_dataset P)).
  unfold annotate_dataset.
  k_bind input_exists; [k_done|].
  destruct (negb input_exists); [k_done|].
  k_bind loaded.
  - k_try e; [k_bind papers; k_done|]. destruct e; k_done.
  - destruct loaded as [papers|]; [|k_done].
    k_bind opened; [by apply write_file_other|].
    k_bind header; [by apply append_line_other|].
    k_bind items; [k_done|].
    k_each paper. apply annotate_paper_input.
Qed.

(** ** Scrapping.py: the retrying fetch *)

Lemma fetch_attempt_fails P url w :
  fetch_fails (session_get P (requests w) url) →
  fetch_attempt P url w
  = (Ok None, World (fs w) (S (requests w)) (trace w ++ [Get url])).
Proof.
  unfold fetch_fails, fetch_attempt, try_except, bind, get, lift, ret.
  destruct (session_get P (requests w) url) as [r|e]; [|done].
  intros [Hstatus|[e He]].
  - apply Z.eqb_neq in Hstatus. by rewrite Hstatus.
  - destruct (status r =? 200); [|done]. by rewrite He.
Qed.

Lemma attempts_trace_next url n :
  attempts_trace url (S (S n)) = Get url :: Sleep 5 :: attempts_trace url (S n).
Proof. done. Qed.

Lemma gets_attempts_trace url n : gets (attempts_trace url n) = n.
Proof.
  enough (gets (attempts_trace url n) = n
          ∧ gets (attempts_trace url (S n)) = S n) by tauto.
  induction n as [|n [_ IH]]; [done|]. split; [done|].
  rewrite attempts_trace_next. cbn [gets]. by rewrite IH.
Qed.

Lemma fetch_loop_fails P url (n : nat) :
  (∀ k, fetch_fails (session_get P k url)) →
  ∀ (m k : nat) w, (k + m = n)%nat →
    fetch_loop P url (Z.of_nat n) (Z.of_nat <$> seq k m) w
    = (Ok None, World (fs w) (requests w + m)
                      (trace w ++ attempts_trace url m)).
Proof.
  intros Hfail. induction m as [|m IH]; intros k w Hkm.
  - destruct w as [f r t]. simpl.
    by rewrite Nat.add_0_r, app_nil_r.
  - cbn [seq fmap list_fmap fetch_loop]. unfold bind at 1.
    rewrite fetch_attempt_fails by apply Hfail.
    destruct m as [|m].
    + rewrite (proj2 (Z.ltb_ge _ _)) by lia.
      simpl. by rewrite Nat.add_1_r.
    + rewrite (proj2 (Z.ltb_lt _ _)) by lia.
      unfold bind, sleep at 1. cbn [fst snd].
      change (list_fmap nat Z Z.of_nat (seq (S k) (S m)))
        with (Z.of_nat <$> seq (S k) (S m)).
      rewrite IH by lia. rewrite attempts_trace_next. cbn [fs requests trace].
      f_equal. f_equal; [lia | by rewrite <- !app_assoc].
Qed.

(** C3: when every GET of the URL fails, [fetch] with [retries] attempts
    issues exactly [retries] GETs, sleeps 5 seconds between consecutive
    ones and nowhere else, and returns [None] without raising. *)
Theorem fetch_retry_bound P url retries w :
  0 ≤ retries →
  (∀ k, fetch_fails (session_get P k url)) →
  ∃ w',
    fetch P url retries w = (Ok None, w')
    ∧ fs w' = fs w
    ∧ trace w' = trace w ++ attempts_trace url (Z.to_nat retries)
    ∧ Z.of_nat (gets (attempts_trace url (Z.to_nat retries))) = retries.
Proof.
  intros Hpos Hfail. unfold fetch, range.
  eexists. split; [|split; [|split]].
  - rewrite <- (Z2Nat.id retries) at 1 by done.
    by apply fetch_loop_fails.
  - done.
  - done.
  - rewrite gets_attempts_trace. lia.
Qed.

Lemma fetch_retry_bound_witness :
  ∃ w',
    fetch service_down (py "https://papers.nips.cc/paper_files/paper/2019") 3
      store_with_one_paper = (Ok None, w')
    ∧ fs w' = fs store_with_one_paper
    ∧ trace w'
      = [Get (py "https://papers.nips.cc/paper_files/paper/2019"); Sleep 5;
         Get (py "https://papers.nips.cc/paper_files/paper/2019"); Sleep 5;
         Get (py "https://papers.nips.cc/paper_files/paper/2019")]
    ∧ Z.of_nat (gets (attempts_trace
                        (py "https://papers.nips.cc/paper_files/paper/2019")
                        (Z.to_nat 3))) = 3.
Proof.
  apply (fetch_retry_bound service_down
           (py "https://papers.nips.cc/paper_files/paper/2019") 3
           store_with_one_paper).
  - lia.
  - intros k. exact I.
Defined.

(** ** Scrapping.py: the asset download *)

(** C2, on the code: against a server whose bodies break after the first
    chunk, all three attempts of [download_pdf] fail, the last one too, and
    the destination, which did not exist, holds the first chunk afterwards. *)
Theorem download_pdf_leaves_partial_file :
  (∀ w, (download_attempt broken_stream
           (py "https://papers.nips.cc/Paper.pdf")
           (pdf_path broken_stream (py "Paper X")) w).1 = Ok false)
  ∧ fs fresh !! pdf_path broken_stream (py "Paper X") = None
  ∧ download_pdf broken_stream (py "https://papers.nips.cc/Paper.pdf")
      (py "Paper X") 3 fresh
    = (Ok tt,
       World {[ pdf_path broken_stream (py "Paper X")
                  := Binary [py "%PDF-1.4"] ]}
             3
             [Get (py "https://papers.nips.cc/Paper.pdf"); Sleep 5;
              Get (py "https://papers.nips.cc/Paper.pdf"); Sleep 5;
              Get (py "https://papers.nips.cc/Paper.pdf")]).
Proof.
  split; [done|]. split; [done|]. by vm_compute.
Qed.

(** ** Scrapping.py: the three kinds of path are distinct *)

Lemma os_path_join_inj P a b b' :
  os_path_join P a b = os_path_join P a b' → b = b'.
Proof.
  unfold os_path_join. intros H.
  by apply app_inv_head in H; apply app_inv_head in H.
Qed.

Lemma csv_is_not_json P : CSV_FILE P ≠ JSON_FILE P.
Proof. intros H. by apply os_path_join_inj in H. Qed.

Lemma pdf_name_last filename : last (filename ++ py ".pdf") = Some 102%N.
Proof.
  change (py ".pdf") with ([46; 112; 100]%N ++ [102%N]).
  by rewrite app_assoc, last_snoc.
Qed.

Lemma pdf_is_not_json P filename : pdf_path P filename ≠ JSON_FILE P.
Proof.
  intros H. apply os_path_join_inj in H.
  apply (f_equal last) in H. by rewrite pdf_name_last in H.
Qed.

Lemma pdf_is_not_csv P filename : pdf_path P filename ≠ CSV_FILE P.
Proof.
  intros H. apply os_path_join_inj in H.
  apply (f_equal last) in H. by rewrite pdf_name_last in H.
Qed.

(** ** Scrapping.py: what the download leaves in place *)

Lemma write_chunks_other file_path path chunks ending :
  file_path ≠ path →
  keeps (same_file path) (write_chunks file_path chunks ending).
Proof.
  intros Hne. induction chunks as [|chunk rest IH]; simpl.
  - destruct ending; k_done.
  - destruct chunk; [k_done|].
    k_bind written; [by apply append_chunk_other | exact IH].
Qed.

Lemma open_wb_other P file_path path :
  file_path ≠ path → keeps (same_file path) (open_wb P file_path).
Proof.
  intros Hne. unfold open_wb.
  destruct (accepts P file_path); [by apply write_file_other | k_done].
Qed.

Lemma download_attempt_other P pdf_url file_path path :
  file_path ≠ path →
  keeps (same_file path) (download_attempt P pdf_url file_path).
Proof.
  intros Hne. unfold download_attempt.
  k_try e; [|k_done].
  k_bind response; [apply same_disk_file; k_done|].
  destruct (status response =? 200); [|k_done].
  k_bind opened; [by apply open_wb_other|].
  k_bind written; [by apply write_chunks_other | k_done].
Qed.

Lemma download_loop_other P pdf_url file_path attempts turns path :
  file_path ≠ path →
  keeps (same_file path) (download_loop P pdf_url file_path attempts turns).
Proof.
  intros Hne. induction turns as [|attempt rest IH]; simpl; [k_done|].
  k_bind finished; [by apply download_attempt_other|].
  destruct finished; [k_done|].
  k_bind slept; [|exact IH].
  destruct (attempt <? attempts - 1); [apply same_disk_file|]; k_done.
Qed.

Lemma download_pdf_other P pdf_url filename attempts path :
  pdf_path P filename ≠ path →
  keeps (same_file path) (download_pdf P pdf_url filename attempts).
Proof.
  intros Hne. unfold download_pdf.
  k_bind file_exists; [k_done|]. destruct file_exists; [k_done|].
  by apply download_loop_other.
Qed.

Lemma download_pdf_returns P pdf_url filename attempts w :
  (download_pdf P pdf_url filename attempts w).1 = Ok tt.
Proof.
  unfold download_pdf, bind, path_exists. simpl.
  destruct (bool_decide _); [done|].
  generalize (range attempts). intros turns. revert w.
  induction turns as [|attempt rest IH]; intros w; simpl; [done|].
  unfold bind at 1.
  assert (∃ b w', download_attempt P pdf_url (pdf_path P filename) w
                  = (Ok b, w')) as (b & w' & ->).
  { unfold download_attempt, try_except.
    destruct (bind _ _ w) as [[b|e] w']; eauto. }
  destruct b; [done|].
  unfold bind.
  destruct (attempt <? attempts - 1); simpl; apply IH.
Qed.

(** ** Scrapping.py: the two stores *)

Lemma writerow_record year title authors abstract pdf_url :
  writerow fieldnames (record year title authors abstract pdf_url)
  = Ok (cells_of (record year title authors abstract pdf_url)).
Proof. done. Qed.

Lemma store_csv_json P m : keeps (same_file (JSON_FILE P)) (store_csv P m).
Proof.
  pose proof (csv_is_not_json P). unfold store_csv.
  k_bind file_exists; [k_done|]. k_bind header.
  { destruct (negb file_exists); [by apply append_line_other | k_done]. }
  k_bind row; [k_done|]. by apply append_line_other.
Qed.

Lemma store_json_csv P m : keeps (same_file (CSV_FILE P)) (store_json P m).
Proof.
  pose proof (csv_is_not_json P). unfold store_json.
  k_bind file_exists; [k_done|].
  destruct file_exists; [|by apply write_file_other].
  k_bind data.
  { k_try e; [k_done|]. destruct e; k_done. }
  k_bind data'; [k_done|]. by apply seek0_dump_other.
Qed.

Lemma store_csv_returns P w year title authors abstract pdf_url :
  (store_csv P (record year title authors abstract pdf_url) w).1 = Ok tt.
Proof.
  unfold store_csv, bind, path_exists, lift. rewrite writerow_record.
  by destruct (negb _).
Qed.

Lemma store_csv_record P w rows year title authors abstract pdf_url :
  let m := record year title authors abstract pdf_url in
  table_holds P w rows →
  table_holds P (store_csv P m w).2 (rows ++ [cells_of m]).
Proof.
  intros m Hrows.
  unfold store_csv, bind, path_exists, lift.
  subst m. rewrite writerow_record.
  unfold table_holds in *.
  destruct (fs w !! CSV_FILE P) as [[| |lines|]|] eqn:Hcsv; try done; simpl.
  - rewrite Hcsv, lookup_insert_eq.
    subst lines. by rewrite fmap_app.
  - rewrite !lookup_insert_eq, Hcsv. by subst rows.
Qed.

Lemma store_json_record P w entries m :
  store_holds P w entries →
  (store_json P m w).1 = Ok tt
  ∧ store_holds P (store_json P m w).2 (entries ++ [JDict m]).
Proof.
  intros Hstore.
  unfold store_json, bind, path_exists, try_except, json_load, lift.
  unfold store_holds in *. simpl.
  destruct (fs w !! JSON_FILE P) as [[[]| | |]|] eqn:Hjson; try done; simpl.
  - rewrite Hjson. simpl. rewrite Hjson. simpl.
    rewrite lookup_insert_eq. by subst.
  - rewrite lookup_insert_eq. by subst.
Qed.

Lemma store_holds_same_file P w w' entries :
  same_file (JSON_FILE P) w w' → store_holds P w entries →
  store_holds P w' entries.
Proof. unfold same_file, store_holds. by intros ->. Qed.

Lemma table_holds_same_file P w w' rows :
  same_file (CSV_FILE P) w w' → table_holds P w rows → table_holds P w' rows.
Proof. unfold same_file, table_holds. by intros ->. Qed.

(** ** Scrapping.py: one document *)

(** The download step of [process_document] returns and leaves both stores
    as they were. *)
Lemma download_step P (pdf_url : option (list N)) title w :
  let step := match pdf_url with
              | Some url => download_pdf P url title 3
              | None => ret tt
              end in
  (step w).1 = Ok tt
  ∧ same_file (JSON_FILE P) w (step w).2
  ∧ same_file (CSV_FILE P) w (step w).2.
Proof.
  destruct pdf_url as [url|]; simpl; [|done].
  split; [apply download_pdf_returns|].
  split; apply download_pdf_other;
    [apply pdf_is_not_json | apply pdf_is_not_csv].
Qed.

Lemma process_document_spec P url year known w :
  ∃ r w',
    process_document P url year known w = (r, w')
    ∧ match page_at P (requests w) url with
      | Raise e => r = Raise e ∧ same_disk w w'
      | Ok page =>
          match extract year known page with
          | Raise e =>
              r = Raise e
              ∧ same_file (JSON_FILE P) w w' ∧ same_file (CSV_FILE P) w w'
          | Ok None => r = Ok tt ∧ same_disk w w'
          | Ok (Some m) =>
              (∀ entries, store_holds P w entries →
                 r = Ok tt ∧ store_holds P w' (entries ++ [JDict m]))
              ∧ (∀ rows, table_holds P w rows →
                   table_holds P w' (rows ++ [cells_of m]))
          end
      end.
Proof.
  unfold process_document, page_at, extract, bind at 1, get.
  cbn [fs requests trace].
  destruct (session_get P (requests w) url) as [resp|e]; [|by eexists _, _].
  unfold bind at 1, lift at 1.
  destruct (text resp) as [html|e]; [|by eexists _, _].
  set (page := BeautifulSoup P html).
  destruct (select_one_title page) as [title_text|]; [|by eexists _, _].
  destruct (decide _); [by eexists _, _|].
  set (title := clean_filename (strip title_text)).
  set (w1 := World (fs w) (S (requests w)) (trace w ++ [Get url])).
  fold (pdf_url_of page).
  unfold bind at 1.
  destruct (download_step P (pdf_url_of page) title w1) as (Hret & Hjson & Hcsv).
  cbv zeta in Hret, Hjson, Hcsv.
  destruct (match pdf_url_of page with
            | Some url0 => download_pdf P url0 title 3
            | None => ret ()
            end w1) as [r2 w2]. simpl in Hret, Hjson, Hcsv. subst r2.
  unfold bind at 1, lift at 1.
  destruct (section_text (find_h4_authors page) _) as [authors|e];
    [|by eexists _, _].
  unfold bind at 1, lift at 1.
  destruct (section_text (find_h4_abstract page) _) as [abstract|e];
    [|by eexists _, _].
  fold (record year title authors abstract (pdf_url_of page)).
  set (m := record year title authors abstract (pdf_url_of page)).
  pose proof (store_csv_returns P w2 year title authors abstract
                (pdf_url_of page)) as Hr3.
  pose proof (store_csv_record P w2) as Htable3.
  specialize (λ rows, Htable3 rows year title authors abstract
                        (pdf_url_of page)).
  pose proof (store_csv_json P m w2) as Hjson3.
  pose proof (store_json_csv P m) as Hcsv4.
  fold m in Hr3, Htable3. cbv zeta in Htable3.
  unfold bind.
  destruct (store_csv P m w2) as [r3 w3]. simpl in Hr3, Htable3, Hjson3.
  subst r3. specialize (Hcsv4 w3).
  pose proof (store_json_record P w3) as Hstore4.
  specialize (λ entries, Hstore4 entries m).
  destruct (store_json P m w3) as [r4 w4]. simpl in Hstore4, Hcsv4.
  eexists _, _. split; [done|]. split.
  - intros entries Hstore. apply Hstore4.
    apply (store_holds_same_file P w2); [done|].
    by apply (store_holds_same_file P w1).
  - intros rows Htable. apply (table_holds_same_file P w3); [done|].
    apply Htable3. by apply (table_holds_same_file P w1).
Qed.




(** ** Scrapping.py: a run over one year on a static site *)





Lemma store_holds_same_disk P w w' entries :
  same_disk w w' → store_holds P w entries → store_holds P w' entries.
Proof. unfold same_disk, store_holds. by intros ->. Qed.

Lemma table_holds_same_disk P w w' rows :
  same_disk w w' → table_holds P w rows → table_holds P w' rows.
Proof. unfold same_disk, table_holds. by intros ->. Qed.




(** ** Scrapping.py: deduplication within a run *)




(** ** Scrapping.py: running the same year again *)

Lemma titles_of_app l1 l2 known1 known2 :
  titles_of l1 = Ok known1 → titles_of l2 = Ok known2 →
  titles_of (l1 ++ l2) = Ok (known1 ∪ known2).
Proof.
  revert known1. induction l1 as [|entry l1 IH]; intros known1; simpl.
  - intros [= <-] ->. by rewrite (left_id_L ∅ (∪)).
  - destruct (getitem entry (py "title")) as [title|e]; [|done].
    destruct (titles_of l1) as [known|e] eqn:Hl1.
    + intros Hk1 Hk2. rewrite (IH known eq_refl Hk2).
      destruct title; simplify_eq; try done.
      by rewrite (assoc_L (∪)).
    + by destruct title.
Qed.








(** * Further properties of the code *)

(** ** [clean_filename] and the file paths *)

(** X1: a name without any of the nine characters and of at most 200
    characters is its own cleaned form. *)
Theorem clean_filename_keeps_safe_names (name : str) :
  Forall (λ c, c ∉ illegal_chars) name → (length name ≤ 200)%nat →
  clean_filename name = name.
Proof.
  intros Hsafe Hlen. unfold clean_filename.
  rewrite re_sub_illegal_id by done. by apply take_ge.
Qed.

Lemma clean_filename_keeps_safe_names_witness :
  clean_filename (py "Attention Is All You Need")
  = py "Attention Is All You Need".
Proof.
  apply (clean_filename_keeps_safe_names (py "Attention Is All You Need")).
  - apply (bool_decide_unpack _). by vm_compute.
  - vm_compute. lia.
Defined.

(** X2: cleaning only deletes: the cleaned name is the input with some
    characters left out, the others in their order. *)
Theorem clean_filename_only_deletes (name : str) :
  clean_filename name `sublist_of` name.
Proof.
  unfold clean_filename, re_sub_illegal.
  etrans; [apply sublist_take | apply sublist_filter].
Qed.

(** X3: the cleaned name is empty exactly when every character of the name
    is one of the nine. *)
Theorem clean_filename_empty_iff (name : str) :
  clean_filename name = [] ↔ Forall (λ c, c ∈ illegal_chars) name.
Proof.
  unfold clean_filename, re_sub_illegal. split.
  - intros Hnil.
    assert (filter (λ c, c ∉ illegal_chars) name = []) as Hfilter.
    { destruct (filter _ name); [done|]. discriminate Hnil. }
    apply Forall_forall. intros c Hc.
    destruct (decide (c ∈ illegal_chars)) as [|Hout]; [done|].
    by destruct (filter_nil_not_elem_of _ _ c Hfilter Hout).
  - intros Hall. induction Hall as [|c l Hc _ IH]; [done|].
    rewrite filter_cons_False by (intros Hout; by apply Hout).
    exact IH.
Qed.

Lemma clean_filename_empty_iff_witness : clean_filename (py "<?>") = [].
Proof.
  apply (clean_filename_empty_iff (py "<?>")).
  apply (bool_decide_unpack _). by vm_compute.
Defined.

(** X4: the PDF of a title never lands on one of the two stores, and two
    different file names get two different paths. *)
Theorem pdf_paths_are_separate P (filename filename' : str) :
  pdf_path P filename ≠ CSV_FILE P
  ∧ pdf_path P filename ≠ JSON_FILE P
  ∧ (pdf_path P filename = pdf_path P filename' → filename = filename').
Proof.
  split; [apply pdf_is_not_csv|]. split; [apply pdf_is_not_json|].
  intros H. apply os_path_join_inj in H. by apply app_inv_tail in H.
Qed.

Lemma pdf_paths_are_separate_witness :
  pdf_path paper_x_site (py "Paper X") ≠ CSV_FILE paper_x_site
  ∧ pdf_path paper_x_site (py "Paper X") ≠ JSON_FILE paper_x_site
  ∧ (pdf_path paper_x_site (py "Paper X")
     = pdf_path paper_x_site (py "Paper X") → py "Paper X" = py "Paper X").
Proof. apply (pdf_paths_are_separate paper_x_site). Defined.

(** ** The two stores *)

Lemma store_csv_row P w rows m cells :
  writerow fieldnames m = Ok cells → table_holds P w rows →
  (store_csv P m w).1 = Ok tt
  ∧ table_holds P (store_csv P m w).2 (rows ++ [cells]).
Proof.
  intros Hrow Hrows. unfold store_csv, bind, path_exists, lift.
  rewrite Hrow. unfold table_holds in *.
  destruct (fs w !! CSV_FILE P) as [[| |lines|]|] eqn:Hcsv; try done; simpl.
  - rewrite Hcsv, lookup_insert_eq. split; [done|].
    subst lines. by rewrite fmap_app.
  - rewrite !lookup_insert_eq, Hcsv. by subst rows.
Qed.

(** X5: however many records are stored, the tabular store has one header,
    on top, written by the store that found no file; every store after it
    adds its row at the end and nothing else. *)
Theorem store_csv_header_once P ms :
  ∀ w rows cells,
    table_holds P w rows →
    Forall2 (λ m c, writerow fieldnames m = Ok c) ms cells →
    (for_each ms (store_csv P) w).1 = Ok tt
    ∧ table_holds P (for_each ms (store_csv P) w).2 (rows ++ cells).
Proof.
  induction ms as [|m ms IH]; intros w rows cells Hrows Hcells.
  - apply Forall2_nil_inv_l in Hcells as ->. by rewrite app_nil_r.
  - apply Forall2_cons_inv_l in Hcells as (c & cells' & Hc & Hcells & ->).
    cbn [for_each]. unfold bind.
    destruct (store_csv_row P w rows m c Hc Hrows) as [Hok Hrows'].
    destruct (store_csv P m w) as [r w1]. simpl in Hok, Hrows'. subst r.
    rewrite cons_middle, (assoc_L (++)). by apply IH.
Qed.

Lemma store_csv_header_once_witness :
  (for_each [twin_record; twin_record] (store_csv twin_site) fresh).1 = Ok tt
  ∧ table_holds twin_site
      (for_each [twin_record; twin_record] (store_csv twin_site) fresh).2
      ([] ++ [cells_of twin_record; cells_of twin_record]).
Proof.
  apply (store_csv_header_once twin_site [twin_record; twin_record] fresh []).
  - reflexivity.
  - repeat constructor.
Defined.

Lemma writerow_extra_key fieldnames rowdict key v :
  (key, v) ∈ rowdict → key ∉ fieldnames →
  writerow fieldnames rowdict = Raise ValueError.
Proof.
  intros Hin Hout. unfold writerow.
  destruct (forallb _ rowdict) eqn:Hall; [|done].
  rewrite forallb_forall in Hall.
  apply list_elem_of_In, Hall, bool_decide_eq_true in Hin. done.
Qed.

(** X6: a record with a key outside the five field names makes [store_csv]
    raise [ValueError] before any row is written; a store that did not exist
    is left behind with its header alone, an existing one is untouched. *)
Theorem store_csv_rejects_extra_key P w m key v :
  (key, v) ∈ m → key ∉ fieldnames →
  (store_csv P m w).1 = Raise ValueError
  ∧ fs (store_csv P m w).2
    = match fs w !! CSV_FILE P with
      | None => <[CSV_FILE P := Table [Header fieldnames]]> (fs w)
      | Some _ => fs w
      end.
Proof.
  intros Hin Hout. unfold store_csv, bind, path_exists, lift.
  rewrite (writerow_extra_key _ _ _ _ Hin Hout).
  destruct (fs w !! CSV_FILE P) as [f|] eqn:Hcsv; simpl; [done|].
  by rewrite Hcsv.
Qed.

Lemma store_csv_rejects_extra_key_witness :
  (store_csv twin_site ((py "doi", JNull) :: twin_record) fresh).1
  = Raise ValueError
  ∧ fs (store_csv twin_site ((py "doi", JNull) :: twin_record) fresh).2
    = match fs fresh !! CSV_FILE twin_site with
      | None => <[CSV_FILE twin_site := Table [Header fieldnames]]> (fs fresh)
      | Some _ => fs fresh
      end.
Proof.
  apply (store_csv_rejects_extra_key twin_site fresh
           ((py "doi", JNull) :: twin_record) (py "doi") JNull).
  - apply list_elem_of_here.
  - apply (bool_decide_unpack _). by vm_compute.
Defined.

Lemma titles_of_not_decode_error entries :
  titles_of entries ≠ Raise JSONDecodeError.
Proof.
  induction entries as [|entry rest IH]; [done|]. simpl.
  destruct entry as [| | | | |l|d]; try done.
  unfold getitem. destruct (dict_get (py "title") d) as [title|]; [|done].
  destruct (titles_of rest) as [known|e]; [by destruct title|].
  destruct title; congruence.
Qed.

Lemma get_processed_titles_titles_of P w entries :
  store_holds P w entries →
  get_processed_titles P w = (titles_of entries, w).
Proof.
  unfold store_holds, get_processed_titles, bind, path_exists, try_except,
    json_load, lift, ret.
  destruct (fs w !! JSON_FILE P) as [[[]| | |]|] eqn:Hjson; try done; simpl.
  - rewrite Hjson. simpl. intros ->.
    pose proof (titles_of_not_decode_error entries).
    destruct (titles_of entries) as [known|[]]; done.
  - by intros ->.
Qed.

Lemma titles_of_elem entries known t :
  titles_of entries = Ok known →
  t ∈ known
  ↔ ∃ entry, entry ∈ entries ∧ getitem entry (py "title") = Ok (JStr t).
Proof.
  revert known. induction entries as [|entry rest IH]; intros known.
  { intros [= <-]. split; [set_solver|]. intros (? & H & _). by inversion H. }
  cbn [titles_of].
  destruct (getitem entry (py "title")) as [title|e] eqn:Hget; [|done].
  assert ((∃ entry', entry' ∈ entry :: rest
                     ∧ getitem entry' (py "title") = Ok (JStr t))
          ↔ title = JStr t
            ∨ ∃ entry', entry' ∈ rest
                        ∧ getitem entry' (py "title") = Ok (JStr t)) as ->.
  { split.
    - intros (entry' & Hin & Ht). apply elem_of_cons in Hin as [->|Hin].
      + left. congruence.
      + right. by exists entry'.
    - intros [->|(entry' & Hin & Ht)].
      + exists entry. split; [apply list_elem_of_here | done].
      + exists entry'. split; [by apply list_elem_of_further | done]. }
  destruct (titles_of rest) as [known'|e]; [|by destruct title].
  rewrite <- (IH known' eq_refl).
  destruct title; intros [= <-]; try (split; [tauto | by intros [?|?]]).
  rewrite elem_of_union, elem_of_singleton.
  split; (intros [?|?]; [left; congruence | by right]).
Qed.

(** X7: what [store_json] appends, [get_processed_titles] finds: after a
    record with title [t] is stored, the known titles are those of before
    and [t]. *)
Theorem stored_title_is_known P w entries known m t :
  store_holds P w entries → titles_of entries = Ok known →
  dict_get (py "title") m = Some (JStr t) →
  (store_json P m w).1 = Ok tt
  ∧ (get_processed_titles P (store_json P m w).2).1 = Ok (known ∪ {[t]}).
Proof.
  intros Hstore Hknown Htitle.
  destruct (store_json_record P w entries m Hstore) as [Hok Hstore'].
  split; [done|].
  rewrite (get_processed_titles_titles_of P _ _ Hstore'). cbn [fst].
  apply titles_of_app; [done|]. cbn [titles_of getitem]. rewrite Htitle.
  by rewrite (right_id_L ∅ (∪)).
Qed.

Lemma stored_title_is_known_witness :
  (store_json twin_site twin_record fresh).1 = Ok tt
  ∧ (get_processed_titles twin_site (store_json twin_site twin_record fresh).2).1
    = Ok (∅ ∪ {[py "Same Title"]}).
Proof.
  apply (stored_title_is_known twin_site fresh [] ∅ twin_record
           (py "Same Title")).
  - reflexivity.
  - reflexivity.
  - reflexivity.
Defined.

(** X8: when the structured store decodes to something that is not a list,
    [store_json] raises [AttributeError] and leaves every file as it was. *)
Theorem store_json_needs_a_list P w data m :
  fs w !! JSON_FILE P = Some (Dumped data) →
  (∀ l, data ≠ JList l) →
  store_json P m w = (Raise AttributeError, w).
Proof.
  intros Hjson Hdata.
  unfold store_json, bind, path_exists, try_except, json_load, lift.
  rewrite Hjson. simpl. rewrite Hjson.
  destruct data; try done. by destruct (Hdata l).
Qed.

Lemma store_json_needs_a_list_witness :
  store_json paper_x_site twin_record object_store
  = (Raise AttributeError, object_store).
Proof.
  apply (store_json_needs_a_list paper_x_site object_store (JDict [])).
  - reflexivity.
  - intros l. discriminate.
Defined.

(** X9: a structured store [json.load] rejects is started over with the new
    record alone when its text is not longer than the new dump.  (A store
    that is not text at all, its bytes not being UTF-8, is not touched:
    [store_json] raises [UnicodeDecodeError].) *)
Theorem store_json_restarts_short_garbage P w len blank_from utf8_from m :
  fs w !! JSON_FILE P = Some (Other len blank_from utf8_from None) →
  (len ≤ dump_len P (JList [JDict m]))%nat →
  if utf8_from 0%nat
  then (store_json P m w).1 = Ok tt
       ∧ store_holds P (store_json P m w).2 [JDict m]
  else store_json P m w = (Raise UnicodeDecodeError, w).
Proof.
  intros Hjson Hlen.
  unfold store_json, bind, path_exists, try_except, json_load, lift,
    store_holds.
  rewrite Hjson. simpl. rewrite Hjson. simpl.
  destruct (utf8_from 0%nat); [|done]. simpl.
  rewrite lookup_insert_eq, Hjson. cbn [dump_over as_text].
  by rewrite (proj2 (Nat.leb_le _ _) Hlen).
Qed.

Lemma store_json_restarts_short_garbage_witness :
  (store_json paper_x_site twin_record empty_store).1 = Ok tt
  ∧ store_holds paper_x_site (store_json paper_x_site twin_record empty_store).2
      [JDict twin_record].
Proof.
  apply (store_json_restarts_short_garbage paper_x_site empty_store 0 0
           (λ _, true)).
  - reflexivity.
  - vm_compute. lia.
Defined.

(** X10: the rewrite starts at the first byte and never truncates.  When
    the text [json.load] rejects is longer than the new dump and not blank
    beyond it, [store_json] returns normally and the store stays unreadable.
    If the dump ends between two characters of the old text, the file is
    still text that is not JSON: the record just written is not among the
    known titles.  If the dump ends inside a multi-byte character, the file
    is no longer UTF-8: reading the known titles and storing the next record
    both raise [UnicodeDecodeError] and change nothing. *)
Theorem store_json_leaves_long_garbage P w len blank_from utf8_from m :
  fs w !! JSON_FILE P = Some (Other len blank_from utf8_from None) →
  utf8_from 0%nat = true →
  (dump_len P (JList [JDict m]) < len)%nat →
  (dump_len P (JList [JDict m]) < blank_from)%nat →
  let w' := (store_json P m w).2 in
  (store_json P m w).1 = Ok tt
  ∧ if utf8_from (dump_len P (JList [JDict m]))
    then (json_load P (JSON_FILE P) w').1 = Raise JSONDecodeError
         ∧ get_processed_titles P w' = (Ok ∅, w')
    else (json_load P (JSON_FILE P) w').1 = Raise UnicodeDecodeError
         ∧ get_processed_titles P w' = (Raise UnicodeDecodeError, w')
         ∧ ∀ m', store_json P m' w' = (Raise UnicodeDecodeError, w').
Proof.
  intros Hjson Hutf8 Hlen Hblank w'.
  set (k := dump_len P (JList [JDict m])) in *.
  assert ((store_json P m w).1 = Ok tt
          ∧ ∃ utf8_from',
              fs w' !! JSON_FILE P
              = Some (Other len (blank_from `max` k) utf8_from' None)
              ∧ utf8_from' 0%nat = utf8_from k) as (Hok & u' & Hjson' & Hu').
  { subst w'.
    unfold store_json, bind, path_exists, try_except, json_load, lift.
    rewrite Hjson. simpl. rewrite Hjson. simpl. rewrite Hutf8. simpl.
    rewrite lookup_insert_eq, Hjson. cbn [dump_over as_text]. fold k.
    rewrite (proj2 (Nat.leb_gt _ _) Hlen), (proj2 (Nat.leb_gt _ _) Hblank).
    split; [done|]. eexists. split; [reflexivity|].
    simpl. destruct k; [done|]. by rewrite (proj2 (Nat.ltb_lt 0 (S k))) by lia. }
  split; [done|]. clearbody w'.
  unfold store_json, get_processed_titles, bind, path_exists, try_except,
    json_load, lift.
  rewrite Hjson'. simpl. rewrite Hjson'. simpl. rewrite Hu'.
  by destruct (utf8_from k).
Qed.

Lemma store_json_leaves_long_garbage_witness :
  let w' := (store_json sequel_site twin_record accented_store).2 in
  (store_json sequel_site twin_record accented_store).1 = Ok tt
  ∧ (json_load sequel_site (JSON_FILE sequel_site) w').1
    = Raise UnicodeDecodeError
  ∧ get_processed_titles sequel_site w' = (Raise UnicodeDecodeError, w')
  ∧ ∀ m', store_json sequel_site m' w' = (Raise UnicodeDecodeError, w').
Proof.
  apply (store_json_leaves_long_garbage sequel_site accented_store 2001 2001
           (λ k, utf8_valid (drop k accented_bytes)) twin_record).
  - reflexivity.
  - by vm_compute.
  - vm_compute. lia.
  - vm_compute. lia.
Defined.

(** X11: [get_processed_titles] answers the empty set, raising nothing and
    changing nothing, when the structured store is absent and when
    [json.load] rejects its text with [JSONDecodeError]. *)
Theorem get_processed_titles_tolerates P w :
  fs w !! JSON_FILE P = None
  ∨ (json_load P (JSON_FILE P) w).1 = Raise JSONDecodeError →
  get_processed_titles P w = (Ok ∅, w).
Proof.
  unfold get_processed_titles, bind, path_exists, try_except, json_load,
    lift, ret.
  intros [Hnone|Hload].
  - by rewrite Hnone.
  - destruct (fs w !! JSON_FILE P) as [f|] eqn:Hjson;
      simpl in *; rewrite ?Hjson; [|done]. simpl.
    destruct (as_text P f) as [| ? ? u []| |];
      try destruct (u 0%nat); done.
Qed.

Lemma get_processed_titles_tolerates_witness :
  get_processed_titles paper_x_site garbled_store = (Ok ∅, garbled_store).
Proof.
  apply (get_processed_titles_tolerates paper_x_site garbled_store).
  right. reflexivity.
Defined.

(** X12: on a store that holds a list of entries, a title is known exactly
    when it is the string under "title" of one of the entries. *)
Theorem known_titles_are_entry_titles P w entries known t :
  store_holds P w entries →
  (get_processed_titles P w).1 = Ok known →
  t ∈ known
  ↔ ∃ entry, entry ∈ entries ∧ getitem entry (py "title") = Ok (JStr t).
Proof.
  intros Hstore. rewrite (get_processed_titles_titles_of P w entries Hstore).
  apply titles_of_elem.
Qed.

Lemma known_titles_are_entry_titles_witness :
  py "Same Title" ∈ ({[py "Same Title"]} ∪ ∅ : gset (list N))
  ↔ ∃ entry, entry ∈ [JDict twin_record]
             ∧ getitem entry (py "title") = Ok (JStr (py "Same Title")).
Proof.
  apply (known_titles_are_entry_titles twin_site
           (store_json twin_site twin_record fresh).2 [JDict twin_record]).
  - reflexivity.
  - reflexivity.
Defined.

(** X13: the tolerance stops at undecodable text: an entry without a
    "title" key, after entries that have one, makes
    [get_processed_titles] raise [KeyError]. *)
Theorem get_processed_titles_needs_titles P w titled known d rest :
  store_holds P w (titled ++ JDict d :: rest) →
  titles_of titled = Ok known →
  dict_get (py "title") d = None →
  get_processed_titles P w = (Raise KeyError, w).
Proof.
  intros Hstore Htitled Hnone.
  rewrite (get_processed_titles_titles_of P w _ Hstore). f_equal.
  clear Hstore. revert known Htitled.
  induction titled as [|entry titled IH]; intros known; simpl.
  - intros _. by rewrite Hnone.
  - destruct (getitem entry (py "title")) as [title|]; [|done].
    destruct (titles_of titled) as [known'|] eqn:Htitled;
      [|by destruct title].
    rewrite (IH known' eq_refl). by destruct title.
Qed.

Lemma get_processed_titles_needs_titles_witness :
  get_processed_titles paper_x_site untitled_store
  = (Raise KeyError, untitled_store).
Proof.
  apply (get_processed_titles_needs_titles paper_x_site untitled_store
           [JDict twin_record] ({[py "Same Title"]} ∪ ∅)
           [(py "year", JInt 2019)] []).
  - reflexivity.
  - reflexivity.
  - reflexivity.
Defined.

(** ** The retrying fetch, beyond the case where every attempt fails *)

Lemma fetch_attempt_succeeds P url w r html :
  session_get P (requests w) url = Ok r → status r = 200 →
  text r = Ok html →
  fetch_attempt P url w
  = (Ok (Some html), World (fs w) (S (requests w)) (trace w ++ [Get url])).
Proof.
  intros Hget Hstatus Htext.
  unfold fetch_attempt, try_except, bind, get, lift, ret.
  by rewrite Hget, Hstatus, Htext.
Qed.

Lemma fetch_loop_succeeds P url (n : nat) r html :
  status r = 200 → text r = Ok html →
  ∀ (k a m : nat) w,
    (k < m)%nat → (a + m = n)%nat →
    (∀ i, (i < k)%nat → fetch_fails (session_get P (requests w + i) url)) →
    session_get P (requests w + k) url = Ok r →
    fetch_loop P url (Z.of_nat n) (Z.of_nat <$> seq a m) w
    = (Ok (Some html),
       World (fs w) (requests w + S k) (trace w ++ attempts_trace url (S k))).
Proof.
  intros Hstatus Htext.
  induction k as [|k IH]; intros a m w Hkm Ham Hfail Hget.
  - destruct m as [|m]; [lia|]. cbn [seq fmap list_fmap fetch_loop].
    unfold bind. rewrite Nat.add_0_r in Hget.
    rewrite (fetch_attempt_succeeds P url w r html) by done.
    unfold ret. by rewrite Nat.add_1_r.
  - destruct m as [|m]; [lia|]. cbn [seq fmap list_fmap fetch_loop].
    unfold bind at 1.
    rewrite fetch_attempt_fails
      by (specialize (Hfail 0%nat); rewrite Nat.add_0_r in Hfail;
          apply Hfail; lia).
    rewrite (proj2 (Z.ltb_lt _ _)) by lia.
    unfold bind, sleep at 1. cbn [fst snd].
    change (list_fmap nat Z Z.of_nat (seq (S a) m))
      with (Z.of_nat <$> seq (S a) m).
    rewrite IH; cbn [fs requests trace]; [|lia|lia| |].
    + rewrite attempts_trace_next.
      f_equal. f_equal; [lia | by rewrite <- !app_assoc].
    + intros i Hi. specialize (Hfail (S i)).
      replace (S (requests w) + i)%nat with (requests w + S i)%nat by lia.
      apply Hfail. lia.
    + by replace (S (requests w) + k)%nat with (requests w + S k)%nat by lia.
Qed.

(** X14: when the first [k] GETs fail and the next one, still within
    [retries], answers 200 with a readable body, [fetch] returns that body
    after exactly [k + 1] GETs, with a 5 second sleep before each retry,
    and changes no file. *)
Theorem fetch_returns_first_success P url retries w (k : nat) r html :
  Z.of_nat k < retries →
  (∀ i, (i < k)%nat → fetch_fails (session_get P (requests w + i) url)) →
  session_get P (requests w + k) url = Ok r →
  status r = 200 → text r = Ok html →
  ∃ w',
    fetch P url retries w = (Ok (Some html), w')
    ∧ fs w' = fs w
    ∧ trace w' = trace w ++ attempts_trace url (S k).
Proof.
  intros Hk Hfail Hget Hstatus Htext. unfold fetch, range.
  eexists. split.
  - rewrite <- (Z2Nat.id retries) at 1 by lia.
    apply (fetch_loop_succeeds P url (Z.to_nat retries) r html Hstatus Htext
             k); [lia | lia | done | done].
  - by split.
Qed.

Lemma fetch_returns_first_success_witness :
  ∃ w',
    fetch third_time_lucky (base_url 2019) 3 fresh = (Ok (Some (py "<html>")), w')
    ∧ fs w' = fs fresh
    ∧ trace w' = trace fresh ++ attempts_trace (base_url 2019) 3.
Proof.
  apply (fetch_returns_first_success third_time_lucky (base_url 2019) 3 fresh
           2 (Response 200 (Ok (py "<html>")) [] None) (py "<html>")).
  - lia.
  - intros i Hi. simpl.
    destruct i as [|[|i]]; [exact I | exact I | lia].
  - reflexivity.
  - reflexivity.
  - reflexivity.
Defined.

Lemma fetch_attempt_returns P url w :
  ∃ html,
    fetch_attempt P url w
    = (Ok html, World (fs w) (S (requests w)) (trace w ++ [Get url])).
Proof.
  unfold fetch_attempt, try_except, bind, get, lift, ret.
  destruct (session_get P (requests w) url) as [r|e]; [|by eexists].
  destruct (status r =? 200); [|by eexists].
  destruct (text r); by eexists.
Qed.

Lemma fetch_loop_returns P url retries turns :
  ∀ w, ∃ html w',
    fetch_loop P url retries turns w = (Ok html, w')
    ∧ fs w' = fs w
    ∧ (requests w' ≤ requests w + length turns)%nat.
Proof.
  induction turns as [|attempt rest IH]; intros w.
  - exists None, w. split; [done|]. split; [done|]. simpl. lia.
  - cbn [fetch_loop]. unfold bind at 1.
    destruct (fetch_attempt_returns P url w) as [html ->].
    destruct html as [html|].
    { eexists _, _. split; [done|]. split; [done|]. simpl. lia. }
    unfold bind.
    assert (∃ w2, (if attempt <? retries - 1 then sleep 5 else ret tt)
                    (World (fs w) (S (requests w)) (trace w ++ [Get url]))
                  = (Ok tt, w2) ∧ fs w2 = fs w
                  ∧ requests w2 = S (requests w)) as (w2 & -> & Hfs & Hreq).
    { destruct (attempt <? retries - 1); by eexists. }
    destruct (IH w2) as (html & w3 & -> & Hfs3 & Hreq3).
    exists html, w3. split; [done|]. split; [congruence|]. simpl. lia.
Qed.

(** X15: whatever the server does, [fetch] raises nothing, changes no file
    and issues at most [retries] GETs (none when [retries] is zero or
    negative). *)
Theorem fetch_is_bounded P url retries w :
  ∃ html w',
    fetch P url retries w = (Ok html, w')
    ∧ fs w' = fs w
    ∧ (requests w' ≤ requests w + Z.to_nat retries)%nat.
Proof.
  unfold fetch, range.
  destruct (fetch_loop_returns P url retries
              (Z.of_nat <$> seq 0 (Z.to_nat retries)) w)
    as (html & w' & Hrun & Hfs & Hreq).
  exists html, w'. by rewrite length_fmap, length_seq in Hreq.
Qed.

(** ** The asset download, beyond the truncated file *)

Lemma write_chunks_complete path chunks :
  Forall (λ c, c ≠ []) chunks →
  ∀ w acc,
    fs w !! path = Some (Binary acc) →
    write_chunks path chunks None w
    = (Ok tt, World (<[path := Binary (acc ++ chunks)]> (fs w))
                    (requests w) (trace w)).
Proof.
  induction 1 as [|chunk rest Hchunk _ IH]; intros w acc Hfile.
  - destruct w as [f n t]. simpl in *.
    by rewrite app_nil_r, insert_id.
  - cbn [write_chunks]. destruct chunk as [|c chunk]; [done|].
    unfold bind, append_chunk at 1. rewrite Hfile.
    rewrite (IH _ (acc ++ [c :: chunk])) by apply lookup_insert_eq.
    cbn [fs requests trace].
    by rewrite insert_insert_eq, <- app_assoc.
Qed.

Lemma download_attempt_succeeds P pdf_url file_path w r :
  accepts P file_path = true →
  session_get P (requests w) pdf_url = Ok r → status r = 200 →
  ending r = None → Forall (λ c, c ≠ []) (content r) →
  download_attempt P pdf_url file_path w
  = (Ok true, World (<[file_path := Binary (content r)]> (fs w))
                    (S (requests w)) (trace w ++ [Get pdf_url])).
Proof.
  intros Haccepts Hget Hstatus Hending Hchunks.
  unfold download_attempt, try_except, bind at 1, get.
  rewrite Hget, Hstatus. cbn [Z.eqb Pos.eqb]. unfold open_wb.
  rewrite Haccepts. unfold bind, write_file at 1.
  rewrite Hending.
  rewrite (write_chunks_complete file_path (content r) Hchunks _ [])
    by apply lookup_insert_eq.
  cbn [fs requests trace]. by rewrite insert_insert_eq.
Qed.

Lemma range_pos n : 0 < n → ∃ rest, range n = 0 :: rest.
Proof.
  intros Hn. unfold range.
  destruct (Z.to_nat n) as [|p] eqn:Hp; [lia|]. by eexists.
Qed.

Lemma download_attempt_fails P pdf_url file_path w :
  request_fails (session_get P (requests w) pdf_url) →
  download_attempt P pdf_url file_path w
  = (Ok false, World (fs w) (S (requests w)) (trace w ++ [Get pdf_url])).
Proof.
  unfold request_fails, download_attempt, try_except, bind, get, ret.
  destruct (session_get P (requests w) pdf_url) as [r|e]; [|done].
  intros Hstatus. apply Z.eqb_neq in Hstatus. by rewrite Hstatus.
Qed.

(** A destination the file system refuses fails every attempt, whatever the
    server answers: [open] raises and the handler takes it for a failed
    download. *)
Lemma download_attempt_refused P pdf_url file_path w :
  accepts P file_path = false →
  download_attempt P pdf_url file_path w
  = (Ok false, World (fs w) (S (requests w)) (trace w ++ [Get pdf_url])).
Proof.
  intros Hrefused.
  unfold download_attempt, try_except, bind, get, ret, open_wb, raise.
  rewrite Hrefused.
  destruct (session_get P (requests w) pdf_url) as [r|e]; [|done].
  by destruct (status r =? 200).
Qed.

Lemma download_loop_in_vain P pdf_url file_path (n : nat) :
  (∀ w, download_attempt P pdf_url file_path w
        = (Ok false,
           World (fs w) (S (requests w)) (trace w ++ [Get pdf_url]))) →
  ∀ (m k : nat) w, (k + m = n)%nat →
    download_loop P pdf_url file_path (Z.of_nat n) (Z.of_nat <$> seq k m) w
    = (Ok tt, World (fs w) (requests w + m)
                    (trace w ++ attempts_trace pdf_url m)).
Proof.
  intros Hfail. induction m as [|m IH]; intros k w Hkm.
  - destruct w as [f r t]. simpl.
    by rewrite Nat.add_0_r, app_nil_r.
  - cbn [seq fmap list_fmap download_loop]. unfold bind at 1.
    rewrite Hfail.
    destruct m as [|m].
    + rewrite (proj2 (Z.ltb_ge _ _)) by lia.
      simpl. by rewrite Nat.add_1_r.
    + rewrite (proj2 (Z.ltb_lt _ _)) by lia.
      unfold bind, sleep at 1. cbn [fst snd].
      change (list_fmap nat Z Z.of_nat (seq (S k) (S m)))
        with (Z.of_nat <$> seq (S k) (S m)).
      rewrite IH by lia. rewrite attempts_trace_next. cbn [fs requests trace].
      f_equal. f_equal; [lia | by rewrite <- !app_assoc].
Qed.

Lemma download_loop_fails P pdf_url file_path (n : nat) :
  (∀ k, request_fails (session_get P k pdf_url)) →
  ∀ (m k : nat) w, (k + m = n)%nat →
    download_loop P pdf_url file_path (Z.of_nat n) (Z.of_nat <$> seq k m) w
    = (Ok tt, World (fs w) (requests w + m)
                    (trace w ++ attempts_trace pdf_url m)).
Proof.
  intros Hfail. apply download_loop_in_vain.
  intros w. by apply download_attempt_fails.
Qed.

(** X16: when the destination does not exist, the file system accepts its
    name and the first GET answers 200 with a body that arrives whole,
    [download_pdf] writes exactly the chunks received, with one GET and no
    sleep; any later [download_pdf] for the same file name finds the file
    and does nothing, not even a request.  When the file system refuses the
    name (the cleaned title is bounded in characters, not in bytes), every
    attempt ends in the handler: [attempts] GETs with a sleep between
    consecutive ones, a normal return, and no file. *)
Theorem download_pdf_once P pdf_url filename attempts w r :
  fs w !! pdf_path P filename = None → 0 < attempts →
  session_get P (requests w) pdf_url = Ok r → status r = 200 →
  ending r = None → Forall (λ c, c ≠ []) (content r) →
  if accepts P (pdf_path P filename)
  then
    let w1 := World (<[pdf_path P filename := Binary (content r)]> (fs w))
                    (S (requests w)) (trace w ++ [Get pdf_url]) in
    download_pdf P pdf_url filename attempts w = (Ok tt, w1)
    ∧ ∀ pdf_url' attempts',
        download_pdf P pdf_url' filename attempts' w1 = (Ok tt, w1)
  else
    download_pdf P pdf_url filename attempts w
    = (Ok tt, World (fs w) (requests w + Z.to_nat attempts)
                    (trace w ++ attempts_trace pdf_url (Z.to_nat attempts))).
Proof.
  intros Hnone Hpos Hget Hstatus Hending Hchunks.
  destruct (accepts P (pdf_path P filename)) eqn:Haccepts.
  - intros w1. split.
    + unfold download_pdf, bind at 1, path_exists. rewrite Hnone.
      destruct (range_pos attempts Hpos) as [rest ->].
      rewrite bool_decide_eq_false_2 by (by intros [? ?]).
      cbn [download_loop]. unfold bind.
      by rewrite (download_attempt_succeeds P pdf_url _ w r).
    + intros pdf_url' attempts'. unfold download_pdf, bind, path_exists.
      subst w1. cbn [fs]. rewrite lookup_insert_eq.
      by rewrite bool_decide_eq_true_2 by eauto.
  - unfold download_pdf, bind, path_exists, range. rewrite Hnone.
    rewrite bool_decide_eq_false_2 by (by intros [? ?]).
    rewrite <- (Z2Nat.id attempts) at 1 by lia.
    apply download_loop_in_vain; [|done].
    intros w'. by apply download_attempt_refused.
Qed.

Lemma download_pdf_once_witness :
  let w1 := World (<[pdf_path pdf_server (py "Paper X")
                       := Binary [py "%PDF-1.4"; py "%%EOF"]]> ∅)
                  1 [Get paper_pdf_url] in
  download_pdf pdf_server paper_pdf_url (py "Paper X") 3 fresh = (Ok tt, w1)
  ∧ ∀ pdf_url' attempts',
      download_pdf pdf_server pdf_url' (py "Paper X") attempts' w1
      = (Ok tt, w1).
Proof.
  apply (download_pdf_once pdf_server paper_pdf_url (py "Paper X") 3 fresh
           pdf_body).
  - reflexivity.
  - lia.
  - reflexivity.
  - reflexivity.
  - reflexivity.
  - repeat constructor; discriminate.
Defined.

(** X17: when the destination does not exist and every GET fails before the
    body (the request raises or the status is not 200), [download_pdf]
    issues exactly [attempts] GETs with a 5 second sleep between consecutive
    ones, returns normally and creates no file. *)
Theorem download_pdf_gives_up_cleanly P pdf_url filename attempts w :
  fs w !! pdf_path P filename = None → 0 ≤ attempts →
  (∀ k, request_fails (session_get P k pdf_url)) →
  download_pdf P pdf_url filename attempts w
  = (Ok tt, World (fs w) (requests w + Z.to_nat attempts)
                  (trace w ++ attempts_trace pdf_url (Z.to_nat attempts))).
Proof.
  intros Hnone Hpos Hfail.
  unfold download_pdf, bind, path_exists, range. rewrite Hnone.
  rewrite bool_decide_eq_false_2 by (by intros [? ?]).
  rewrite <- (Z2Nat.id attempts) at 1 by done.
  by apply download_loop_fails.
Qed.

Lemma download_pdf_gives_up_cleanly_witness :
  download_pdf robotics paper_pdf_url (py "Paper X") 3 fresh
  = (Ok tt, World (fs fresh) (requests fresh + Z.to_nat 3)
                  (trace fresh ++ attempts_trace paper_pdf_url (Z.to_nat 3))).
Proof.
  apply (download_pdf_gives_up_cleanly robotics paper_pdf_url (py "Paper X")
           3 fresh).
  - reflexivity.
  - lia.
  - intros k. simpl. discriminate.
Defined.

(** X18: whatever the server does, [download_pdf] raises nothing and
    changes no file other than its destination. *)
Theorem download_pdf_is_contained P pdf_url filename attempts w :
  (download_pdf P pdf_url filename attempts w).1 = Ok tt
  ∧ ∀ path, path ≠ pdf_path P filename →
      fs (download_pdf P pdf_url filename attempts w).2 !! path
      = fs w !! path.
Proof.
  split; [apply download_pdf_returns|].
  intros path Hne. by apply download_pdf_other.
Qed.

Lemma download_pdf_is_contained_witness :
  (download_pdf broken_stream paper_pdf_url (py "Paper X") 3 fresh).1 = Ok tt
  ∧ fs (download_pdf broken_stream paper_pdf_url (py "Paper X") 3 fresh).2
      !! JSON_FILE broken_stream
    = fs fresh !! JSON_FILE broken_stream.
Proof.
  destruct (download_pdf_is_contained broken_stream paper_pdf_url
              (py "Paper X") 3 fresh) as [Hok Hother].
  split; [exact Hok|]. apply Hother. by vm_compute.
Defined.

(** ** One document, in general *)



(** X20: a page without a title element, or whose cleaned title is already
    known, costs one GET and nothing else: no download, no file changed,
    normal return. *)
Theorem process_document_skips P url year known w page :
  page_at P (requests w) url = Ok page →
  match select_one_title page with
  | None => True
  | Some title_text => clean_filename (strip title_text) ∈ known
  end →
  process_document P url year known w
  = (Ok tt, World (fs w) (S (requests w)) (trace w ++ [Get url])).
Proof.
  unfold page_at, process_document, bind, get, lift.
  destruct (session_get P (requests w) url) as [r|]; [|done].
  destruct (text r) as [html|]; [|done]. intros [= <-].
  destruct (select_one_title (BeautifulSoup P html)); [|done].
  intros Hknown. by rewrite decide_True.
Qed.

Lemma process_document_skips_witness :
  process_document twin_site paper_x_url 2019 {[py "Same Title"]} fresh
  = (Ok tt, World (fs fresh) (S (requests fresh))
                  (trace fresh ++ [Get paper_x_url])).
Proof.
  apply (process_document_skips twin_site paper_x_url 2019
           {[py "Same Title"]} fresh twin_page).
  - reflexivity.
  - apply elem_of_singleton. reflexivity.
Defined.

(** X21: a heading "Authors" or "Abstract" that no paragraph follows makes
    [process_document] raise [AttributeError] for a title not yet known;
    both stores are as they were, so the document leaves no record. *)
Theorem process_document_needs_paragraph P url year known w page title_text :
  page_at P (requests w) url = Ok page →
  select_one_title page = Some title_text →
  clean_filename (strip title_text) ∉ known →
  find_h4_authors page = Some None
  ∨ find_h4_abstract page = Some None →
  (process_document P url year known w).1 = Raise AttributeError
  ∧ fs (process_document P url year known w).2 !! JSON_FILE P
    = fs w !! JSON_FILE P
  ∧ fs (process_document P url year known w).2 !! CSV_FILE P
    = fs w !! CSV_FILE P.
Proof.
  intros Hpage Htitle Hnew Hheading.
  destruct (process_document_spec P url year known w)
    as (r & w' & -> & Hspec).
  rewrite Hpage in Hspec. unfold extract in Hspec.
  rewrite Htitle, decide_False in Hspec by done.
  destruct Hheading as [Hauthors|Habstract].
  - by rewrite Hauthors in Hspec.
  - rewrite Habstract in Hspec.
    destruct (find_h4_authors page) as [[authors|]|]; exact Hspec.
Qed.

Lemma process_document_needs_paragraph_witness :
  (process_document headless_site paper_x_url 2019 ∅ fresh).1
  = Raise AttributeError
  ∧ fs (process_document headless_site paper_x_url 2019 ∅ fresh).2
      !! JSON_FILE headless_site
    = fs fresh !! JSON_FILE headless_site
  ∧ fs (process_document headless_site paper_x_url 2019 ∅ fresh).2
      !! CSV_FILE headless_site
    = fs fresh !! CSV_FILE headless_site.
Proof.
  apply (process_document_needs_paragraph headless_site paper_x_url 2019 ∅
           fresh headless_page (py "Paper X")).
  - reflexivity.
  - reflexivity.
  - apply not_elem_of_empty.
  - left. reflexivity.
Defined.

(** X22: [process_document] retries nothing and catches nothing: when the
    GET of the document raises, or reading its body does, the exception
    leaves the function as it came, after that single GET and with no file
    changed. *)
Theorem process_document_propagates P url year known w e :
  page_at P (requests w) url = Raise e →
  process_document P url year known w
  = (Raise e, World (fs w) (S (requests w)) (trace w ++ [Get url])).
Proof.
  unfold page_at, process_document, bind, get, lift.
  destruct (session_get P (requests w) url) as [r|]; [|by intros [= ->]].
  destruct (text r) as [html|]; [done | by intros [= ->]].
Qed.

Lemma process_document_propagates_witness :
  process_document service_down paper_x_url 2019 ∅ fresh
  = (Raise ClientError,
     World (fs fresh) (S (requests fresh)) (trace fresh ++ [Get paper_x_url])).
Proof.
  apply (process_document_propagates service_down paper_x_url 2019 ∅ fresh).
  reflexivity.
Defined.

(** ** The stores under any run *)

Lemma grown_refl P w entries rows :
  store_holds P w entries → table_holds P w rows → grown P entries rows w.
Proof. intros. exists []. by rewrite !app_nil_r. Qed.

Lemma appends_same_disk {A} P (m : M A) : keeps same_disk m → appends P m.
Proof.
  intros Hm w entries rows Hstore Htable. apply grown_refl.
  - apply (store_holds_same_disk P w); [apply Hm | done].
  - apply (table_holds_same_disk P w); [apply Hm | done].
Qed.

Lemma appends_bind {A B} P (m : M A) (k : A → M B) :
  appends P m → (∀ a, appends P (k a)) → appends P (bind m k).
Proof.
  intros Hm Hk w entries rows Hstore Htable. unfold bind.
  destruct (Hm w entries rows Hstore Htable) as (added & Hs & Ht).
  destruct (m w) as [[a|e] w1]; simpl in *; [|by exists added].
  destruct (Hk a w1 _ _ Hs Ht) as (added' & Hs' & Ht').
  exists (added ++ added'). by rewrite !fmap_app, !(assoc_L (++)).
Qed.

Lemma appends_for_each {A} P (l : list A) (body : A → M unit) :
  (∀ x, appends P (body x)) → appends P (for_each l body).
Proof.
  intros Hbody. induction l as [|x l IH]; simpl.
  - apply appends_same_disk. k_done.
  - apply appends_bind; [apply Hbody | by intros _].
Qed.

Lemma process_document_appends P url year known :
  appends P (process_document P url year known).
Proof.
  intros w entries rows Hstore Htable.
  destruct (process_document_spec P url year known w)
    as (r & w' & -> & Hspec). cbn [snd].
  destruct (page_at P (requests w) url) as [page|e].
  2:{ destruct Hspec as [_ Hdisk]. apply grown_refl.
      - by apply (store_holds_same_disk P w).
      - by apply (table_holds_same_disk P w). }
  destruct (extract year known page) as [[m|]|e].
  - destruct Hspec as [Hjson Hcsv]. exists [m]. split.
    + by apply Hjson.
    + by apply Hcsv.
  - destruct Hspec as [_ Hdisk]. apply grown_refl.
    + by apply (store_holds_same_disk P w).
    + by apply (table_holds_same_disk P w).
  - destruct Hspec as (_ & Hjson & Hcsv). apply grown_refl.
    + by apply (store_holds_same_file P w).
    + by apply (table_holds_same_file P w).
Qed.

Lemma fetch_same_disk P url retries : keeps same_disk (fetch P url retries).
Proof.
  intros w. unfold fetch.
  by destruct (fetch_loop_returns P url retries (range retries) w)
    as (html & w' & -> & Hfs & _).
Qed.

Lemma get_processed_titles_same_disk P :
  keeps same_disk (get_processed_titles P).
Proof.
  unfold get_processed_titles.
  k_bind file_exists; [k_done|]. destruct file_exists; [|k_done].
  k_try e.
  - k_bind data; [k_done|]. k_bind entries; k_done.
  - destruct e; k_done.
Qed.

Lemma fetch_yearly_data_appends P year : appends P (fetch_yearly_data P year).
Proof.
  unfold fetch_yearly_data.
  apply appends_bind; [apply appends_same_disk, fetch_same_disk|].
  intros [[|c html]|]; try (apply appends_same_disk; k_done).
  apply appends_bind;
    [apply appends_same_disk, get_processed_titles_same_disk|].
  intros known. apply appends_for_each. intros paper. cbv zeta.
  destruct (decide _); [apply appends_same_disk; k_done|].
  apply process_document_appends.
Qed.



(** X24: the same holds of [main], over all its years: from an empty
    directory, or from stores that agree, the two stores agree when it
    stops, however it stops. *)
Theorem main_grows_both_stores P w entries rows :
  store_holds P w entries → table_holds P w rows →
  ∃ added,
    store_holds P (main P w).2 (entries ++ (JDict <$> added))
    ∧ table_holds P (main P w).2 (rows ++ (cells_of <$> added)).
Proof.
  intros Hstore Htable. revert w entries rows Hstore Htable.
  change (appends P (main P)). unfold main.
  apply appends_for_each. intros year.
  apply appends_bind; [apply fetch_yearly_data_appends|].
  intros _. apply appends_same_disk. k_done.
Qed.

Lemma main_grows_both_stores_witness :
  ∃ added,
    store_holds service_down (main service_down fresh).2
      ([] ++ (JDict <$> added))
    ∧ table_holds service_down (main service_down fresh).2
        ([] ++ (cells_of <$> added)).
Proof.
  apply (main_grows_both_stores service_down fresh [] []).
  - reflexivity.
  - reflexivity.
Defined.

(** ** Years whose index page does not load *)

Lemma fetch_gives_up P url w :
  (∀ k, fetch_fails (session_get P k url)) →
  fetch P url 3 w
  = (Ok None, World (fs w) (requests w + 3)
                    (trace w ++ attempts_trace url 3)).
Proof.
  intros Hfail. unfold fetch.
  apply (fetch_loop_fails P url 3 Hfail 3 0 w). lia.
Qed.

Lemma unreachable_year_is_skipped_aux P year w :
  (∀ k url, fetch_fails (session_get P k url)) →
  fetch_yearly_data P year w
  = (Ok tt, World (fs w) (requests w + 3)
                  (trace w ++ attempts_trace (base_url year) 3)).
Proof.
  intros Hfail. unfold fetch_yearly_data, bind.
  by rewrite (fetch_gives_up P (base_url year) w (λ k, Hfail k _)).
Qed.

(** X25: when every GET of the year's index page fails, the run over that
    year gives up after three GETs and returns normally; it reads and
    changes no file, whatever state the stores are in. *)
Theorem unreachable_year_is_skipped P year w :
  (∀ k, fetch_fails (session_get P k (base_url year))) →
  fetch_yearly_data P year w
  = (Ok tt, World (fs w) (requests w + 3)
                  (trace w ++ attempts_trace (base_url year) 3)).
Proof.
  intros Hfail. unfold fetch_yearly_data, bind.
  by rewrite (fetch_gives_up P (base_url year) w Hfail).
Qed.

Lemma unreachable_year_is_skipped_witness :
  fetch_yearly_data service_down 2019 untitled_store
  = (Ok tt, World (fs untitled_store) (requests untitled_store + 3)
                  (trace untitled_store ++ attempts_trace (base_url 2019) 3)).
Proof.
  apply (unreachable_year_is_skipped service_down 2019 untitled_store).
  intros k. exact I.
Defined.

Lemma years_unreachable P (years : list Z) :
  (∀ k url, fetch_fails (session_get P k url)) →
  ∀ w,
    for_each years (λ year, fetch_yearly_data P year ;; sleep 5) w
    = (Ok tt,
       World (fs w) (requests w + 3 * length years)
             (trace w ++ flat_map (λ year, attempts_trace (base_url year) 3
                                           ++ [Sleep 5]) years)).
Proof.
  intros Hfail. induction years as [|year years IH]; intros w.
  - destruct w as [f n t]. simpl. by rewrite Nat.add_0_r, app_nil_r.
  - cbn [for_each flat_map]. unfold bind at 1 2.
    rewrite unreachable_year_is_skipped_aux by done.
    unfold sleep at 1. rewrite IH. cbn [fs requests trace length].
    f_equal. f_equal; [lia | by rewrite <- !app_assoc].
Qed.

(** X26: against a site on which every GET fails, [main] walks the years
    2018 to 2023 in order, three GETs each, sleeps 5 seconds after every
    year, the last one too, returns normally and creates no file. *)
Theorem main_on_unreachable_site P w :
  (∀ k url, fetch_fails (session_get P k url)) →
  main P w
  = (Ok tt,
     World (fs w) (requests w + 18)
           (trace w ++ flat_map (λ year, attempts_trace (base_url year) 3
                                         ++ [Sleep 5])
                         [2018; 2019; 2020; 2021; 2022; 2023])).
Proof.
  intros Hfail. unfold main. by rewrite years_unreachable.
Qed.

Lemma main_on_unreachable_site_witness :
  main service_down fresh
  = (Ok tt,
     World (fs fresh) (requests fresh + 18)
           (trace fresh ++ flat_map (λ year, attempts_trace (base_url year) 3
                                             ++ [Sleep 5])
                             [2018; 2019; 2020; 2021; 2022; 2023])).
Proof.
  apply (main_on_unreachable_site service_down fresh).
  intros k url. exact I.
Defined.

(** ** The annotation pass as a whole *)

(** X27: when the structured store is absent, or [json.load] rejects its
    text with [JSONDecodeError], the annotation pass returns at once: no
    call is made and no file is written, so an annotated table from an
    earlier pass stays as it is. *)
Theorem annotation_needs_readable_input P w :
  fs w !! INPUT_JSON_FILE = None
  ∨ (json_load P INPUT_JSON_FILE w).1 = Raise JSONDecodeError →
  annotate_dataset P w = (Ok tt, w).
Proof.
  unfold annotate_dataset, bind, path_exists, try_except, json_load, ret.
  intros [Hnone|Hload].
  - by rewrite Hnone.
  - destruct (fs w !! INPUT_JSON_FILE) as [f|] eqn:Hjson;
      simpl in *; rewrite ?Hjson; [|done]. simpl.
    destruct (as_text P f) as [| ? ? u []| |];
      try destruct (u 0%nat); done.
Qed.

Lemma annotation_needs_readable_input_witness :
  annotate_dataset robotics half_written_input = (Ok tt, half_written_input).
Proof.
  apply (annotation_needs_readable_input robotics half_written_input).
  right. reflexivity.
Defined.












(** ** The label is trimmed *)

Lemma lstrip_head s :
  match head (lstrip s) with Some c => is_space c = false | None => True end.
Proof.
  induction s as [|c s IH]; [done|]. simpl.
  by destruct (is_space c) eqn:Hc; [|simpl].
Qed.

Lemma lstrip_snoc s c :
  is_space c = false → ∃ s', lstrip (s ++ [c]) = s' ++ [c].
Proof.
  intros Hc. induction s as [|c' s IH]; simpl.
  - rewrite Hc. by exists [].
  - destruct (is_space c'); [done|]. by exists (c' :: s).
Qed.

Lemma rstrip_last s :
  match last (rstrip s) with Some c => is_space c = false | None => True end.
Proof.
  unfold rstrip. pose proof (lstrip_head (reverse s)) as Hhead.
  destruct (lstrip (reverse s)) as [|c l]; [done|].
  by rewrite reverse_cons, last_snoc.
Qed.

Lemma rstrip_head s :
  match head s with Some c => is_space c = false | None => True end →
  match head (rstrip s) with Some c => is_space c = false | None => True end.
Proof.
  destruct s as [|c s]; [done|]. simpl. intros Hc. unfold rstrip.
  rewrite reverse_cons.
  destruct (lstrip_snoc (reverse s) c Hc) as [s' ->].
  by rewrite reverse_app.
Qed.

Lemma strip_trimmed s : trimmed (strip s).
Proof.
  unfold trimmed, strip. split.
  - apply rstrip_head, lstrip_head.
  - apply rstrip_last.
Qed.

Lemma first_answer_trimmed response answer :
  first_answer response = Ok answer → trimmed answer.
Proof.
  unfold first_answer.
  destruct (getitem response (py "choices")) as [choices|]; [|done].
  destruct (getitem0 choices) as [choice|]; [|done].
  destruct (getitem choice (py "message")) as [message|]; [|done].
  destruct (getitem message (py "content")) as [content|]; [|done].
  destruct content; try done. intros [= <-]. apply strip_trimmed.
Qed.

(** X30: the label [annotate_with_gemini] returns never starts or ends with
    a whitespace character, whatever the service answers. *)
Theorem category_is_trimmed P title abstract w :
  ∃ label,
    (annotate_with_gemini P title abstract w).1 = Ok label ∧ trimmed label.
Proof.
  rewrite annotate_with_gemini_run. eexists. split; [done|].
  unfold answer_or_sentinel.
  destruct (acreate P (requests w) (prompt title abstract)) as [response|];
    [|by vm_compute].
  destruct (first_answer response) as [answer|] eqn:Hanswer; [|by vm_compute].
  by apply (first_answer_trimmed response).
Qed.
